(** * python-legistar-scraper: field aggregation, search-form queries, dates
      and the organization cache

    A shallow embedding of [legistar/base/field.py], [legistar/bills.py] and
    [legistar/old/people.py].  Python dictionaries with string keys are
    [gmap string _]; a method that may raise returns a [result]; objects that
    are mutated through a shared reference (the search form and its client,
    the organization cache) are threaded as explicit state. *)

From Stdlib Require Import ZArith String Ascii List Bool Lia.
From stdpp Require Import base option list gmap strings sorting.

Open Scope string_scope.
Set Warnings "-register-all,-clear-no-such-hyp".

(* ===================================================================== *)
(** ** Python values, exceptions and the error monad *)
(* ===================================================================== *)

Module Py.

(** The Python values that flow through configuration entries, queries and
    session state. *)
Inductive value : Type :=
  | VNone
  | VBool (b : bool)
  | VStr (s : string)
  | VList (items : list value).

(** Truth value testing, as used by [x or y] and [if x]. *)
Definition truthy (v : value) : bool :=
  match v with
  | VNone => false
  | VBool b => b
  | VStr s => negb (String.eqb s EmptyString)
  | VList l => match l with [] => false | _ :: _ => true end
  end.

(** The exceptions the modelled code can raise.  [SkipItem] is the
    scraper's own control-flow signal; the others are Python built-ins.
    [NotModelled] marks a library behaviour outside the fragment of the
    library that is modelled here (an XPath expression or a strptime
    directive the scraper never builds). *)
Inductive exn : Type :=
  | SkipItem
  | AttributeError (name : string)
  | NotImplementedError (msg : string)
  | TypeError (msg : string)
  | ValueError (msg : string)
  | NotModelled (what : string).

#[global] Instance exn_eq_dec : EqDecision exn.
Proof. solve_decision. Defined.

(** The spec's name for the failure of a configuration lookup.  The code
    has no exception class of its own for it: [getattr(self.cfg, name)]
    raises Python's [AttributeError] for the missing attribute [name]. *)
Definition ConfigurationMissing (name : string) : exn := AttributeError name.

Inductive result (A : Type) : Type :=
  | Ok (a : A)
  | Raise (e : exn).
Arguments Ok {A} a.
Arguments Raise {A} e.

#[global] Instance result_ret : MRet result := fun _ a => Ok a.
#[global] Instance result_bind : MBind result := fun _ _ f m =>
  match m with
  | Ok a => f a
  | Raise e => Raise e
  end.
#[global] Instance result_fmap : FMap result := fun _ _ f m =>
  match m with
  | Ok a => Ok (f a)
  | Raise e => Raise e
  end.

(** [try: m except SkipItem: h] *)
Definition except_SkipItem {A} (m : result A) (h : result A) : result A :=
  match m with
  | Raise SkipItem => h
  | _ => m
  end.

(** [a or b]: [b] is evaluated only when [a] is falsy. *)
Definition py_or (a : value) (b : result value) : result value :=
  if truthy a then Ok a else b.

(** [str.upper()] on the ASCII letters; other bytes are unchanged
    (configuration keys are ASCII identifiers). *)
Definition upper_ascii (c : ascii) : ascii :=
  let n := nat_of_ascii c in
  if (97 <=? n)%nat && (n <=? 122)%nat then ascii_of_nat (n - 32) else c.

Fixpoint upper (s : string) : string :=
  match s with
  | EmptyString => EmptyString
  | String c s' => String (upper_ascii c) (upper s')
  end.

(** [getattr(obj, name)] on an object whose attributes are the entries of
    [attrs]. *)
Definition getattr (attrs : gmap string value) (name : string) : result value :=
  match attrs !! name with
  | Some v => Ok v
  | None => Raise (AttributeError name)
  end.

(** ['%s' % v] for a value that is not a sequence; the [repr] of a list is
    outside the modelled fragment. *)
Definition format_s (v : value) : result string :=
  match v with
  | VNone => Ok "None"
  | VBool true => Ok "True"
  | VBool false => Ok "False"
  | VStr s => Ok s
  | VList _ => Raise (NotModelled "repr of a list")
  end.

End Py.
Import Py.

(* ===================================================================== *)
(** ** legistar/base/field.py *)
(* ===================================================================== *)

Module Field.

(** What a concrete [FieldAccessor] answers: the interface of the source,
    whose base class raises [NotImplementedError] in every method.  An
    accessor is read-only, so it is modelled by its answers. *)
Record FieldAccessor : Type := mkAccessor {
  get_url : option string;   (* the first url, or None *)
  get_text : string;
  is_blank : bool
}.

(** [CtxMixin]: what every view, form, table and aggregator can reach,
    the jurisdiction configuration [cfg], together with the [KEY_PREFIX]
    property that [FieldAggregator] subclasses define. *)
Class CtxMixin (A : Type) : Type := {
  KEY_PREFIX : A -> result string;
  cfg : A -> gmap string value
}.

(** The [KEY_PREFIX] property of the base class. *)
Definition KEY_PREFIX_base : result string :=
  Raise (NotImplementedError "Field subclasses must define KEY_PREFIX.").

Section aggregator.
Context {A : Type} `{CtxMixin A}.

(** [FieldAggregator.get_config_value] *)
Definition get_config_value (self : A) (key : string) : result value :=
  prefix ← KEY_PREFIX self;
  let name := prefix +:+ "_" +:+ upper key in
  getattr (cfg self) name.

(** [FieldAggregator.get_label_text] *)
Definition get_label_text (self : A) (key : string) : result value :=
  let key := "TEXT_" +:+ upper key in
  get_config_value self key.

End aggregator.

(** A [FieldAggregator] instance: its prefix, its configuration and the
    field data of the record it is scoped to.  A stored [None] is Python's
    [None]. *)
Record FieldAggregator : Type := mkAggregator {
  agg_KEY_PREFIX : result string;
  agg_cfg : gmap string value;
  field_data : gmap string (option FieldAccessor)
}.

#[global] Instance FieldAggregator_ctx : CtxMixin FieldAggregator :=
  {| KEY_PREFIX := agg_KEY_PREFIX; cfg := agg_cfg |}.

(** [self.field_data[key]]: the keys of the field data are strings, so a
    hashable key that is not a string is absent ([KeyError]), and a list is
    unhashable ([TypeError]).  [None] in the result is the [KeyError]. *)
Definition field_data_getitem (fd : gmap string (option FieldAccessor))
    (key : value) : result (option (option FieldAccessor)) :=
  match key with
  | VStr s => Ok (fd !! s)
  | VNone | VBool _ => Ok None
  | VList _ => Raise (TypeError "unhashable type: 'list'")
  end.

(** [FieldAggregator.get_field_data] *)
Definition get_field_data (self : FieldAggregator) (label_text : string)
    : result (option FieldAccessor) :=
  key ← get_label_text self label_text;
  found ← field_data_getitem (field_data self) key;
  match found with
  | Some data => Ok data
  | None => Raise SkipItem   (* The data wasn't found, so we skip it. *)
  end.

(** [FieldAggregator.get_field_text] *)
Definition get_field_text (self : FieldAggregator) (label_text : string)
    : result (option string) :=
  field_data ← get_field_data self label_text;
  match field_data with
  | Some fd => if is_blank fd then Ok None else Ok (Some (get_text fd))
  | None => Ok None
  end.

(** [FieldAggregator.get_field_url]: [field_data.get_url() or None] turns
    an empty url into [None]. *)
Definition get_field_url (self : FieldAggregator) (label_text : string)
    : result (option string) :=
  field_data ← get_field_data self label_text;
  match field_data with
  | Some fd =>
      match get_url fd with
      | Some u => if String.eqb u EmptyString then Ok None else Ok (Some u)
      | None => Ok None
      end
  | None => Ok None
  end.

End Field.
Import Field.

(* ===================================================================== *)
(** ** datetime.strptime and strftime, for the date directives *)
(* ===================================================================== *)

Module Dates.

(** A [datetime.datetime]: the wall-clock fields and the attached zone. *)
Record datetime : Type := mkDatetime {
  year : Z; month : Z; day : Z;
  hour : Z; minute : Z; second : Z;
  tzinfo : option string
}.

(** [dt.date()] *)
Definition date (dt : datetime) : Z * Z * Z := (year dt, month dt, day dt).

Inductive directive : Type := DYear | DMonth | DDay | DHour | DMinute | DSecond.

#[global] Instance directive_eq_dec : EqDecision directive.
Proof. solve_decision. Defined.

(** The pieces of a format string: a directive, a literal character, or a
    run of white space. *)
Inductive token : Type :=
  | TDirective (d : directive)
  | TLiteral (c : ascii)
  | TSpace (c : ascii).

Definition is_space (c : ascii) : bool :=
  let n := nat_of_ascii c in
  (n =? 32)%nat || ((9 <=? n)%nat && (n <=? 13)%nat).

Definition directive_of (c : ascii) : option directive :=
  if Ascii.eqb c "Y" then Some DYear
  else if Ascii.eqb c "m" then Some DMonth
  else if Ascii.eqb c "d" then Some DDay
  else if Ascii.eqb c "H" then Some DHour
  else if Ascii.eqb c "M" then Some DMinute
  else if Ascii.eqb c "S" then Some DSecond
  else None.

(** Reading a format string.  The directives outside the six above (and a
    stray percent sign) are outside the modelled fragment. *)
Fixpoint tokens (fmt : string) : result (list token) :=
  match fmt with
  | EmptyString => Ok []
  | String c rest =>
      if Ascii.eqb c "%" then
        match rest with
        | EmptyString => Raise (ValueError "stray % in format")
        | String d rest' =>
            if Ascii.eqb d "%" then cons (TLiteral "%") <$> tokens rest'
            else match directive_of d with
                 | Some dir => cons (TDirective dir) <$> tokens rest'
                 | None => Raise (NotModelled "strptime directive")
                 end
        end
      else if is_space c then cons (TSpace c) <$> tokens rest
      else cons (TLiteral c) <$> tokens rest
  end.

Definition digit_of (c : ascii) : option Z :=
  let n := nat_of_ascii c in
  if (48 <=? n)%nat && (n <=? 57)%nat then Some (Z.of_nat (n - 48)) else None.

(** The regular expression of a directive is an alternation; each
    alternative is one or two digits within bounds (or four digits for the
    year).  [two lo hi lo' hi'] reads a first digit in [lo..hi] and a second
    in [lo'..hi']; [one lo hi] reads a single digit. *)
Definition two (lo hi lo' hi' : Z) (s : string) : list (Z * string) :=
  match s with
  | String a (String b rest) =>
      match digit_of a, digit_of b with
      | Some x, Some y =>
          if (lo <=? x)%Z && (x <=? hi)%Z && (lo' <=? y)%Z && (y <=? hi')%Z
          then [((10 * x + y)%Z, rest)] else []
      | _, _ => []
      end
  | _ => []
  end.

Definition one (lo hi : Z) (s : string) : list (Z * string) :=
  match s with
  | String a rest =>
      match digit_of a with
      | Some x => if (lo <=? x)%Z && (x <=? hi)%Z then [(x, rest)] else []
      | None => []
      end
  | _ => []
  end.

Definition four (s : string) : list (Z * string) :=
  match s with
  | String a (String b (String c (String d rest))) =>
      match digit_of a, digit_of b, digit_of c, digit_of d with
      | Some w, Some x, Some y, Some z =>
          [((1000 * w + 100 * x + 10 * y + z)%Z, rest)]
      | _, _, _, _ => []
      end
  | _ => []
  end.

(** The ways a directive can match a prefix of [s], in the order in which
    the regular expression tries them. *)
Definition match_directive (d : directive) (s : string) : list (Z * string) :=
  match d with
  | DYear => four s                                         (* \d\d\d\d *)
  | DMonth => two 1 1 0 2 s ++ two 0 0 1 9 s ++ one 1 9 s   (* 1[0-2]|0[1-9]|[1-9] *)
  | DDay =>                               (* 3[0-1]|[1-2]\d|0[1-9]|[1-9]| [1-9] *)
      two 3 3 0 1 s ++ two 1 2 0 9 s ++ two 0 0 1 9 s ++ one 1 9 s ++
      match s with
      | String c rest => if Ascii.eqb c " " then one 1 9 rest else []
      | EmptyString => []
      end
  | DHour => two 2 2 0 3 s ++ two 0 1 0 9 s ++ one 0 9 s    (* 2[0-3]|[0-1]\d|\d *)
  | DMinute => two 0 5 0 9 s ++ one 0 9 s                   (* [0-5]\d|\d *)
  | DSecond => two 6 6 0 1 s ++ two 0 5 0 9 s ++ one 0 9 s  (* 6[0-1]|[0-5]\d|\d *)
  end.

(** The suffixes left by a greedy, backtracking run of one or more white
    space characters: longest run first. *)
Fixpoint after_spaces (s : string) : list string :=
  match s with
  | String c rest => if is_space c then after_spaces rest ++ [rest] else []
  | EmptyString => []
  end.

(** The parsed fields, as [(directive, number)] pairs in format order. *)
Definition fields : Type := list (directive * Z).

(** Backtracking match of the whole format against a prefix of [s]: every
    successful way, in the order the regular expression engine finds them.
    The expression is compiled with IGNORECASE, so a literal letter matches
    in either case; a run of white space in the format is one [\s+]. *)
Fixpoint match_tokens (ts : list token) (s : string) : list (fields * string) :=
  match ts with
  | [] => [([], s)]
  | TDirective d :: ts' =>
      '(n, rest) ← match_directive d s;
      '(fs, rest') ← match_tokens ts' rest;
      [((d, n) :: fs, rest')]
  | TLiteral c :: ts' =>
      match s with
      | String c' rest =>
          if Ascii.eqb (upper_ascii c) (upper_ascii c') then match_tokens ts' rest else []
      | EmptyString => []
      end
  | TSpace _ :: ts' =>
      match ts' with
      | TSpace _ :: _ => match_tokens ts' s
      | _ => rest ← after_spaces s; match_tokens ts' rest
      end
  end.

Definition field_or (fs : fields) (d : directive) (dflt : Z) : Z :=
  match list_find (fun p => bool_decide (p.1 = d)) fs with
  | Some (_, (_, n)) => n
  | None => dflt
  end.

Definition is_leap (y : Z) : bool :=
  ((y mod 4 =? 0) && negb (y mod 100 =? 0) || (y mod 400 =? 0))%Z.

Definition days_in_month (y m : Z) : Z :=
  if (m =? 2)%Z then (if is_leap y then 29 else 28)
  else if ((m =? 4) || (m =? 6) || (m =? 9) || (m =? 11))%Z then 30
  else 31.

Definition directives_of (ts : list token) : list directive :=
  omap (fun t => match t with TDirective d => Some d | _ => None end) ts.

(** [datetime.strptime(text, fmt)]: the first match of the format must use
    up the whole text, and the fields must make a date that exists.  A
    missing field takes its default (1900-01-01 00:00:00).  A format that
    repeats a directive is outside the modelled fragment. *)
Definition strptime (text fmt : string) : result datetime :=
  ts ← tokens fmt;
  if bool_decide (NoDup (directives_of ts)) then
    match match_tokens ts text with
    | [] => Raise (ValueError "time data does not match format")
    | (fs, rest) :: _ =>
        if negb (String.eqb rest EmptyString)
        then Raise (ValueError "unconverted data remains")
        else
          let y := field_or fs DYear 1900 in
          let m := field_or fs DMonth 1 in
          let d := field_or fs DDay 1 in
          let s := field_or fs DSecond 0 in
          if ((1 <=? y) && (d <=? days_in_month y m) && (s <=? 59))%Z
          then Ok {| year := y; month := m; day := d;
                     hour := field_or fs DHour 0;
                     minute := field_or fs DMinute 0;
                     second := s; tzinfo := None |}
          else Raise (ValueError "value is out of range")
    end
  else Raise (NotModelled "strptime format repeating a directive").

Definition digit_char (n : Z) : ascii := ascii_of_nat (48 + Z.to_nat (n mod 10)).

(** A number in [width] decimal digits, padded with zeros. *)
Fixpoint zero_padded (width : nat) (n : Z) : string :=
  match width with
  | O => EmptyString
  | S w => zero_padded w (n / 10) +:+ String (digit_char n) EmptyString
  end.

Definition format_directive (d : directive) (dt : datetime) : string :=
  match d with
  | DYear => zero_padded 4 (year dt)
  | DMonth => zero_padded 2 (month dt)
  | DDay => zero_padded 2 (day dt)
  | DHour => zero_padded 2 (hour dt)
  | DMinute => zero_padded 2 (minute dt)
  | DSecond => zero_padded 2 (second dt)
  end.

Fixpoint format_tokens (ts : list token) (dt : datetime) : string :=
  match ts with
  | [] => EmptyString
  | TDirective d :: ts' => format_directive d dt +:+ format_tokens ts' dt
  | TLiteral c :: ts' => String c (format_tokens ts' dt)
  | TSpace c :: ts' => String c (format_tokens ts' dt)
  end.

(** [dt.strftime(fmt)], for the same directives; the year is written in
    four digits. *)
Definition strftime (dt : datetime) (fmt : string) : result string :=
  ts ← tokens fmt;
  Ok (format_tokens ts dt).

End Dates.
Import Dates.

(* ===================================================================== *)
(** ** legistar/bills.py *)
(* ===================================================================== *)

Module Bills.

(** *** DateGetter *)

Section date_getter.
(** [self.cfg.datetime_add_tz]: a method of the jurisdiction configuration,
    which is not among the sources; it is a parameter here. *)
Variable datetime_add_tz : datetime -> datetime.

(** [DateGetter._get_date].  [strptime] wants a [str] format. *)
Definition _get_date (self : FieldAggregator) (label_text : string)
    : result (option datetime) :=
  fmt ← get_config_value self "datetime_format";
  text ← get_field_text self label_text;
  match text with
  | Some text =>
      match fmt with
      | VStr fmt =>
          dt ← strptime text fmt;
          let dt := datetime_add_tz dt in
          Ok (Some dt)
      | _ => Raise (TypeError "strptime() argument 2 must be str")
      end
  | None => Ok None
  end.

End date_getter.

(** *** The parsed document *)

(** An element of the lxml tree: tag, attributes and child elements. *)
Inductive element : Type :=
  | Element (tag : string) (attrib : gmap string string) (children : list element).

Definition attrib_of (e : element) : gmap string string :=
  match e with Element _ a _ => a end.

(** Every element of the tree under [e], [e] first, in document order. *)
Fixpoint descendants (e : element) : list element :=
  match e with
  | Element _ _ children => e :: flat_map descendants children
  end.

Definition has_name (n : string) (e : element) : bool :=
  bool_decide (attrib_of e !! "name" = Some n).

(** The double quote character. *)
Definition dq : ascii := "034"%char.

Definition quoted (s : string) : string :=
  String dq (s +:+ String dq EmptyString).

(** Whether the character [c] occurs in [s]. *)
Fixpoint contains_char (c : ascii) (s : string) : bool :=
  match s with
  | EmptyString => false
  | String c' s' => Ascii.eqb c c' || contains_char c s'
  end.

Fixpoint strip_prefix (p s : string) : option string :=
  match p, s with
  | EmptyString, _ => Some s
  | String a p', String b s' =>
      if Ascii.eqb a b then strip_prefix p' s' else None
  | String _ _, EmptyString => None
  end.

(** The text up to the first double quote, and what follows that quote. *)
Fixpoint until_quote (s : string) : option (string * string) :=
  match s with
  | EmptyString => None
  | String c s' =>
      if Ascii.eqb c dq then Some (EmptyString, s')
      else '(lit, tail) ← until_quote s'; Some (String c lit, tail)
  end.

(** The one shape of XPath expression the form builds: every element whose
    [name] attribute equals a string literal.  The literal of an expression
    of that shape is returned. *)
Definition name_query (expr : string) : option string :=
  rest ← strip_prefix ("//*[@name=" +:+ String dq EmptyString) expr;
  '(lit, tail) ← until_quote rest;
  if String.eqb tail "]" then Some lit else None.

(** [doc.xpath(expr)] for that shape; any other expression is outside the
    modelled fragment of XPath. *)
Definition xpath (doc : element) (expr : string) : result (list element) :=
  match name_query expr with
  | Some n => Ok (filter (fun e => has_name n e = true) (descendants doc))
  | None => Raise (NotModelled "XPath expression")
  end.

(** *** BillsSearchForm *)

(** The form: the configuration it reads through [get_config_value] (the
    lookup of [field.py]), the document it was built over, and the session
    state of its client.  [Form] itself is not among the sources. *)
Record Form : Type := mkForm {
  form_KEY_PREFIX : result string;
  form_cfg : gmap string value;
  doc : element;
  client_state : gmap string value;
  url : string
}.

#[global] Instance Form_ctx : CtxMixin Form :=
  {| KEY_PREFIX := form_KEY_PREFIX; cfg := form_cfg |}.

(** A key of a dictionary that is splatted into keyword arguments
    ([dict(state, **query)]) must be a string. *)
Definition as_key (v : value) : result string :=
  match v with
  | VStr s => Ok s
  | _ => Raise (TypeError "keywords must be strings")
  end.

Definition tabTop_ClientState : string :=
  "{" +:+ quoted "selectedIndexes" +:+ ":[" +:+ quoted "1" +:+ "],"
      +:+ quoted "logEntries" +:+ ":[]," +:+ quoted "scrollState" +:+ ":{}}".

Definition RadScriptManager1_TSM : string :=
  ";;System.Web.Extensions, Version=4.0.0.0, Culture=neutral, PublicKeyToken=31bf3856ad364e35:en-US:fa6755fd-da1a-49d3-9eb4-1e473e780ecd:ea597d4b:b25378d2;Telerik.Web.UI, Version=2014.1.403.45, Culture=neutral, PublicKeyToken=121fae78165ba3d4:en-US:68d9452f-f268-45b2-8db7-8c3bbf305b8d:16e4e7cd:f7645509:24ee1bba:e330518b:88144a7a:1e771326:8e6f0d33:ed16cbdc:f46195d3:19620875:874f8ea2:cda80b3:383e4ce8:2003d0b8:aa288e2d:258f1c72:c128760b:c8618e41:1a73651d:333f8d94:58366029".

Definition btnSearch2 : string := "ctl00$ContentPlaceHolder1$btnSearch2".
Definition lstMax_ClientState : string := "ctl00_ContentPlaceHolder1_lstMax_ClientState".

(** [BillsSearchForm.get_query_simple], the body under the
    [try_jxn_delegation] decorator (a jurisdiction that does not override
    it).  The entries of the dictionary display are evaluated left to
    right, key before value; a later entry with the same key replaces an
    earlier one.  [m1 ∪ m2] keeps the entry of [m1] on a common key. *)
Definition get_query_simple (self : Form) (time_period bodies : value)
    (kwargs : gmap string value) : result (gmap string value) :=
  let configval := get_config_value self in
  time_period ← py_or time_period (configval "time_period");
  bodies ← py_or bodies (configval "types");
  types_el_name ← configval "types_el_name";
  time_period_el_name ← configval "time_period_el_name";
  button_el_name ← configval "button_el_name";
  button ← configval "button";
  id_el_name ← configval "id_el_name";
  id ← configval "id";
  text_el_name ← configval "text_el_name";
  text ← configval "text";
  types_el_name ← as_key types_el_name;
  time_period_el_name ← as_key time_period_el_name;
  button_el_name ← as_key button_el_name;
  id_el_name ← as_key id_el_name;
  text_el_name ← as_key text_el_name;
  let query : gmap string value :=
    <[text_el_name := text]>
    (<[id_el_name := id]>
    (<[button_el_name := button]>
    (<[time_period_el_name := time_period]>
    (<[types_el_name := bodies]>
    (<["ctl00_RadScriptManager1_TSM" := VStr RadScriptManager1_TSM]>
    (<["ctl00_tabTop_ClientState" := VStr tabTop_ClientState]> ∅)))))) in
  let query := kwargs ∪ query in           (* query.update(kwargs) *)
  let query := query ∪ client_state self in (* dict(self.client.state, **query) *)
  Ok query.

(** [BillsSearchForm.get_query_advanced] *)
Definition get_query_advanced (self : Form) (time_period bodies : value)
    (kwargs : gmap string value) : result (gmap string value) :=
  let configval := get_config_value self in
  time_period ← py_or time_period (configval "time_period");
  let query : gmap string value :=
    <["ctl00$ContentPlaceHolder1$lstYearsAdvanced" := time_period]>
    (<["ctl00$ContentPlaceHolder1$lstMax" := VStr "All"]>
    (<[btnSearch2 := VStr "Search Legislation"]> ∅)) in
  let query := kwargs ∪ query in
  let query := query ∪ client_state self in
  Ok query.

(** [BillsSearchForm.default_search_is_simple] *)
Definition default_search_is_simple (self : Form) : result bool :=
  advanced_id ← get_config_value self "advanced_time_period_el_name";
  name ← format_s advanced_id;
  found ← xpath (doc self) ("//*[@name=" +:+ quoted name +:+ "]");
  let advanced := match found with [] => false | _ :: _ => true end in
  if advanced then Ok false else Ok true.

(** A call of [f(self, time_period=None, bodies=None, **kwargs)] with
    keyword arguments only: the two named parameters are taken out of the
    keyword arguments. *)
Definition rest_kwargs (kwargs : gmap string value) : gmap string value :=
  delete "bodies" (delete "time_period" kwargs).

Definition named_arg (kwargs : gmap string value) (name : string) : value :=
  default VNone (kwargs !! name).

Section form_submit.
(** [Form.submit(query)]: the round trip to the server, which replaces the
    document and updates the client's session state.  It belongs to the
    [Form] base class and the transport, neither among the sources. *)
Variable submit : Form -> gmap string value -> result Form.

(** [BillsSearchForm.switch_to_advanced_search] *)
Definition switch_to_advanced_search (self : Form) : result Form :=
  let query : gmap string value :=
    {[ "__EVENTTARGET" := VStr "ctl00$ContentPlaceHolder1$btnSwitch" ]} in
  submit self query.

(** [BillsSearchForm.get_query]: the form after the call is returned with
    the query, since the switch mutates it. *)
Definition get_query (self : Form) (kwargs : gmap string value)
    : result (gmap string value * Form) :=
  simple ← default_search_is_simple self;
  self ← (if simple : bool then switch_to_advanced_search self else Ok self);
  query ← get_query_advanced self (named_arg kwargs "time_period")
             (named_arg kwargs "bodies") (rest_kwargs kwargs);
  Ok (query, self).

(** [BillsSearchForm.get_pagination_query] *)
Definition get_pagination_query (self : Form) (kwargs : gmap string value)
    : result (gmap string value * Form) :=
  '(query, self) ← get_query self kwargs;
  let query := delete lstMax_ClientState query in
  let query := delete btnSearch2 query in
  let query := query ∪ client_state self in
  Ok (query, self).

End form_submit.

(** *** BillsDetailTableRow *)

(** One entry of the [media] list: [dict(name=..., links=[dict(url=...,
    media_type=...)])]. *)
Record media : Type := mkMedia {
  media_name : string;
  media_links : list (string * string)
}.

(** Iterating a value in a [for] loop: a string yields its characters. *)
Fixpoint chars (s : string) : list value :=
  match s with
  | EmptyString => []
  | String c s' => VStr (String c EmptyString) :: chars s'
  end.

Definition py_iter (v : value) : result (list value) :=
  match v with
  | VList l => Ok l
  | VStr s => Ok (chars s)
  | _ => Raise (TypeError "object is not iterable")
  end.

Section row.
(** [self.client.head(url=url)] followed by
    [resp.headers['content-type']]: the transport, a parameter. *)
Variable head_content_type : string -> result string.

(** [BillsDetailTableRow._get_media] *)
Definition _get_media (self : FieldAggregator) (label : string) : result media :=
  data ← get_field_data self label;
  match data with
  | None => Raise (AttributeError "get_url")
  | Some data =>
      match get_url data with
      | None => Raise SkipItem
      | Some url =>
          media_type ← head_content_type url;
          Ok {| media_name := get_text data;
                media_links := [(url, media_type)] |}
      end
  end.

(** The loop of [gen_media] over the remaining labels, collected by
    [wrapwith=list].  A label must be a [str] to have [upper]. *)
Fixpoint gen_media_loop (self : FieldAggregator) (labels : list value)
    : result (list media) :=
  match labels with
  | [] => Ok []
  | label :: labels' =>
      match label with
      | VStr label =>
          match _get_media self label with
          | Ok m => cons m <$> gen_media_loop self labels'
          | Raise SkipItem => gen_media_loop self labels'   (* continue *)
          | Raise e => Raise e
          end
      | _ => Raise (AttributeError "upper")
      end
  end.

(** [BillsDetailTableRow.gen_media] *)
Definition gen_media (self : FieldAggregator) : result (list media) :=
  labels ← get_config_value self "pupa_media";
  labels ← py_iter labels;
  gen_media_loop self labels.

End row.

End Bills.

(* ===================================================================== *)
(** ** legistar/old/people.py *)
(* ===================================================================== *)

Module People.

(** [MembershipAdapter.stringify_date]: [dt] is a datetime or [None]; a
    datetime is never falsy. *)
Definition stringify_date (dt : option datetime) : result string :=
  match dt with
  | None => Raise SkipItem
  | Some dt => strftime dt "%Y-%m-%d"
  end.

(** A source of a person or an organization: [dict(url=..., note=...)]. *)
Record Source : Type := mkSource {
  source_url : string;
  note : string
}.

(** A [pupa.scrape.Organization].  Its [_id] is made fresh by the
    constructor; here it is the number of the creation. *)
Record Organization : Type := mkOrganization {
  _id : nat;
  name : string;
  classification : string;
  sources : list Source
}.

(** [org.add_source( **source)] appends the source. *)
Definition add_source (org : Organization) (source : Source) : Organization :=
  {| _id := _id org; name := name org; classification := classification org;
     sources := sources org ++ [source] |}.

(** [needle in hay] on strings. *)
Fixpoint is_substring (needle hay : string) : bool :=
  String.prefix needle hay ||
  match hay with
  | EmptyString => false
  | String _ hay' => is_substring needle hay'
  end.

(** What a conversion run shares: [self.config.org_cache], and how many
    organizations have been constructed so far. *)
Record ConvState : Type := mkConvState {
  org_cache : gmap string Organization;
  constructed : nat
}.

(** The three [return] statements of [get_org] (lines 72, 87 and 94). *)
Inductive exit_point : Type :=
  | ReturnCacheHit
  | ReturnAfterCaching
  | ReturnAfterDetailSources.

#[global] Instance exit_point_eq_dec : EqDecision exit_point.
Proof. solve_decision. Defined.

Section converter.
(** [self.cfg.get_org_classification], a method of the jurisdiction
    configuration (not among the sources), and [self.person.sources]. *)
Variable get_org_classification : string -> string.
Variable person_sources : list Source.

(** The loop of lines 90 to 92, on a variable [org] that holds an
    organization or [None]; [None] has no [add_source]. *)
Fixpoint add_detail_sources (org : option Organization) (srcs : list Source)
    : result (option Organization) :=
  match srcs with
  | [] => Ok org
  | source :: srcs' =>
      if is_substring "detail" (note source) then
        match org with
        | Some o => add_detail_sources (Some (add_source o source)) srcs'
        | None => Raise (AttributeError "add_source")
        end
      else add_detail_sources org srcs'
  end.

(** [MembershipConverter.get_org], with the [return] statement it left
    through.  The local variable [org] holds an organization or [None]. *)
Definition get_org_traced (st : ConvState) (org_name : string)
    : result (exit_point * (bool * option Organization) * ConvState) :=
  let created := false in
  let orgs := org_cache st in
  (* Get the org. *)
  let org : option Organization := orgs !! org_name in
  match org with
  | Some _ =>
      (* Cache hit. *)
      Ok (ReturnCacheHit, (created, org), st)
  | None =>
      (* Create the org. *)
      let classification := get_org_classification org_name in
      let new_org :=
        foldl add_source
          {| _id := constructed st; name := org_name;
             classification := classification; sources := [] |}
          person_sources in
      let org : option Organization := Some new_org in
      let created := true in
      (* Cache it. *)
      let st := {| org_cache := <[org_name := new_org]> orgs;
                   constructed := S (constructed st) |} in
      match org with
      | Some _ => Ok (ReturnAfterCaching, (created, org), st)
      | None =>
          (* Add a source to the org. *)
          org ← add_detail_sources org person_sources;
          Ok (ReturnAfterDetailSources, (created, org), st)
      end
  end.

(** [MembershipConverter.get_org] *)
Definition get_org (st : ConvState) (org_name : string)
    : result (bool * option Organization * ConvState) :=
  '(_, r, st') ← get_org_traced st org_name;
  Ok (r, st').

(** The state after a run of [get_org] calls, one per name; a call that
    raises ends the run. *)
Fixpoint get_orgs (st : ConvState) (names : list string) : ConvState :=
  match names with
  | [] => st
  | org_name :: names' =>
      match get_org st org_name with
      | Ok (_, st') => get_orgs st' names'
      | Raise _ => st
      end
  end.

End converter.

End People.

(* ===================================================================== *)
(** ** The item generator behind FieldAggregator.__iter__ *)
(* ===================================================================== *)

Module ItemGenerator.

Section units.
Context {Self V : Type}.

(** Modelled from the spec: [legistar/utils/itemgenerator.py] ([make_item]
    and [ItemGenerator.__iter__]) is not among the sources.  Per the spec,
    fields are declared as independent generator units, one per logical
    output key; a unit is its key and its evaluation on the record. *)
Definition generator_unit : Type := string * (Self -> result V).

(** Modelled from the spec: the iteration of [ItemGenerator], consumed to
    the end as [dict(instance)] does.  It produces one (key, value) pair per
    declared unit, in declaration order, skipping a unit whose evaluation
    raised [SkipItem]; any other error ends the iteration with that
    error. *)
Fixpoint iter (units : list generator_unit) (self : Self)
    : result (list (string * V)) :=
  match units with
  | [] => Ok []
  | (key, gen) :: units' =>
      match gen self with
      | Ok v => cons (key, v) <$> iter units' self
      | Raise SkipItem => iter units' self
      | Raise e => Raise e
      end
  end.

(** [dict(pairs)]: a later pair replaces an earlier one with the same
    key. *)
Definition dict (items : list (string * V)) : gmap string V :=
  foldl (fun m kv => <[kv.1 := kv.2]> m) ∅ items.

(** The pair a unit contributes, if it does not raise. *)
Definition emitted (self : Self) (u : generator_unit) : option (string * V) :=
  match u.2 self with
  | Ok v => Some (u.1, v)
  | Raise _ => None
  end.

End units.

End ItemGenerator.

(* ===================================================================== *)
(** ** The declared units of two record types, and sample records *)
(* ===================================================================== *)

Module Examples.
Import Bills People ItemGenerator.

(** The value of an item: a date, or a list of media entries. *)
Inductive item_value : Type :=
  | ItemDate (dt : option datetime)
  | ItemMedia (ms : list media).

(** The [make_item] units of [BillsDetailTableRow]: [date] and [media]. *)
Definition BillsDetailTableRow_units (datetime_add_tz : datetime -> datetime)
    (head_content_type : string -> result string)
    : list (@generator_unit FieldAggregator item_value) :=
  [ ("date", fun self => ItemDate <$> _get_date datetime_add_tz self "date");
    ("media", fun self => ItemMedia <$> gen_media head_content_type self) ].

(** The date units that [BillsDetailView] adds: [agenda],
    [enactment_date] and [final_action]. *)
Definition BillsDetailView_date_units (datetime_add_tz : datetime -> datetime)
    : list (@generator_unit FieldAggregator item_value) :=
  [ ("agenda", fun self => ItemDate <$> _get_date datetime_add_tz self "agenda");
    ("enactment_date",
      fun self => ItemDate <$> _get_date datetime_add_tz self "enactment_date");
    ("final_action",
      fun self => ItemDate <$> _get_date datetime_add_tz self "final_action") ].

(** Attaching a zone to a naive datetime, as a localizing
    [datetime_add_tz] does. *)
Definition localize (zone : string) (dt : datetime) : datetime :=
  {| year := year dt; month := month dt; day := day dt;
     hour := hour dt; minute := minute dt; second := second dt;
     tzinfo := Some zone |}.

Definition text_field (text : string) : option FieldAccessor :=
  Some {| get_url := None; get_text := text; is_blank := false |}.

(** A row of a bill's action table: prefix [BILL_DETAIL_TABLE], a date
    format, two labels, and a date field. *)
Definition example_cfg : gmap string value :=
  <["BILL_DETAIL_TABLE_DATETIME_FORMAT" := VStr "%m/%d/%Y"]>
  (<["BILL_DETAIL_TABLE_TEXT_DATE" := VStr "Date"]>
  (<["BILL_DETAIL_TABLE_TEXT_VIDEO" := VStr "Video"]>
  (<["BILL_DETAIL_TABLE_PUPA_MEDIA" := VList [VStr "date"; VStr "video"]]> ∅))).

Definition example_row : FieldAggregator :=
  {| agg_KEY_PREFIX := Ok "BILL_DETAIL_TABLE";
     agg_cfg := example_cfg;
     field_data :=
       <["Date" := text_field "03/14/2019"]>
       (<["Video" := Some {| get_url := Some "http://example.org/meeting.mp4";
                             get_text := "Video"; is_blank := false |}]> ∅) |}.

(** A bill's detail page that shows an agenda date and a final action date
    but no enactment date. *)
Definition example_view : FieldAggregator :=
  {| agg_KEY_PREFIX := Ok "BILL_DETAIL";
     agg_cfg :=
       <["BILL_DETAIL_DATETIME_FORMAT" := VStr "%m/%d/%Y"]>
       (<["BILL_DETAIL_TEXT_AGENDA" := VStr "On agenda"]>
       (<["BILL_DETAIL_TEXT_ENACTMENT_DATE" := VStr "Enactment date"]>
       (<["BILL_DETAIL_TEXT_FINAL_ACTION" := VStr "Final action"]> ∅)));
     field_data :=
       <["On agenda" := text_field "03/14/2019"]>
       (<["Final action" := text_field "04/01/2019"]> ∅) |}.

(** A search form: its configuration, a page in advanced mode, a page in
    simple mode, and a session state that holds two hidden fields. *)
Definition advanced_el_name : string := "ctl00$ContentPlaceHolder1$lstYearsAdvanced".

Definition search_cfg : gmap string value :=
  <["BILLS_SEARCH_ADVANCED_TIME_PERIOD_EL_NAME" := VStr advanced_el_name]>
  (<["BILLS_SEARCH_TIME_PERIOD" := VStr "All Years"]>
  (<["BILLS_SEARCH_TYPES" := VList [VStr "All Types"]]>
  (<["BILLS_SEARCH_TYPES_EL_NAME" := VStr "ctl00$ContentPlaceHolder1$lstTypeBasic"]>
  (<["BILLS_SEARCH_TIME_PERIOD_EL_NAME" := VStr "ctl00$ContentPlaceHolder1$lstYears"]>
  (<["BILLS_SEARCH_BUTTON_EL_NAME" := VStr "ctl00$ContentPlaceHolder1$btnSearch"]>
  (<["BILLS_SEARCH_BUTTON" := VStr "Search Legislation"]>
  (<["BILLS_SEARCH_ID_EL_NAME" := VStr "ctl00$ContentPlaceHolder1$chkID"]>
  (<["BILLS_SEARCH_ID" := VStr "on"]>
  (<["BILLS_SEARCH_TEXT_EL_NAME" := VStr "ctl00$ContentPlaceHolder1$chkText"]>
  (<["BILLS_SEARCH_TEXT" := VStr "on"]> ∅)))))))))).

Definition page (control_name : string) : element :=
  Element "html" ∅
    [ Element "head" ∅ [];
      Element "body" ∅
        [ Element "form" {[ "id" := "aspnetForm" ]}
            [ Element "select" {[ "name" := control_name ]} [] ] ] ].

Definition advanced_page : element := page advanced_el_name.
Definition simple_page : element := page "ctl00$ContentPlaceHolder1$lstYears".

Definition session_state : gmap string value :=
  <["__VIEWSTATE" := VStr "dDwtMTA4"]>
  (<[lstMax_ClientState := VStr "{}"]> ∅).

Definition search_form (document : element) : Form :=
  {| form_KEY_PREFIX := Ok "BILLS_SEARCH"; form_cfg := search_cfg;
     doc := document; client_state := session_state;
     url := "https://example.legistar.com/Legislation.aspx" |}.

(** A server that answers every submission with the advanced page and a new
    view state. *)
Definition scripted_submit (self : Form) (query : gmap string value)
    : result Form :=
  Ok {| form_KEY_PREFIX := form_KEY_PREFIX self; form_cfg := form_cfg self;
        doc := advanced_page;
        client_state := <["__VIEWSTATE" := VStr "bmV4dA"]> (client_state self);
        url := url self |}.

(** Overrides that collide with a static parameter of each mode and with a
    field of the session state. *)
Definition colliding_kwargs : gmap string value :=
  <["__VIEWSTATE" := VStr "override"]>
  (<["ctl00$ContentPlaceHolder1$lstMax" := VStr "100"]>
  (<["ctl00$ContentPlaceHolder1$btnSearch" := VStr "Go"]> ∅)).


(** The search form in advanced mode with a session state that holds the
    view state only. *)
Definition fresh_form : Form :=
  {| form_KEY_PREFIX := Ok "BILLS_SEARCH"; form_cfg := search_cfg;
     doc := advanced_page;
     client_state := {[ "__VIEWSTATE" := VStr "dDwtMTA4" ]};
     url := "https://example.legistar.com/Legislation.aspx" |}.

(** Two datetimes on the same day, at midnight and in the afternoon. *)
Definition midnight : datetime :=
  {| year := 2019; month := 3; day := 14; hour := 0; minute := 0; second := 0;
     tzinfo := None |}.
Definition afternoon : datetime :=
  {| year := 2019; month := 3; day := 14; hour := 15; minute := 30; second := 0;
     tzinfo := Some "US/Central" |}.

(** A transport whose probe finds a video behind every url. *)
Definition probe (url : string) : result string := Ok "video/mp4".

End Examples.

(* ===================================================================== *)
(** ** legistar/bills.py: the list-valued items *)
(* ===================================================================== *)

Module BillsItems.

(** *** gen_sources *)

(** One entry of the [sources] list: [dict(url=..., note=...)]. *)
Record source_item : Type := mkSourceItem {
  item_url : string;
  item_note : string
}.

(** [grouped[url].add(note)] on a [defaultdict(set)], kept as the list of
    its items in insertion order: a new url goes to the end. *)
Fixpoint group_add (grouped : list (string * gset string)) (url note : string)
    : list (string * gset string) :=
  match grouped with
  | [] => [(url, {[ note ]})]
  | (u, notes) :: rest =>
      if bool_decide (u = url) then (u, {[ note ]} ∪ notes) :: rest
      else (u, notes) :: group_add rest url note
  end.

(** [sorted(notes)] on a set of strings. *)
Definition sorted (notes : gset string) : list string :=
  merge_sort String.le (elements notes).

(** [', '.join(parts)] *)
Definition join_comma (parts : list string) : string :=
  String.concat ", " parts.

(** [BillsFields.gen_sources] (and the same method of
    [BillsDetailAction]), collected by [wrapwith=list].  [sources] are the
    items of [self.chainmap['sources']], a dictionary from note to url, in
    its iteration order. *)
Definition gen_sources (sources : list (string * string)) : list source_item :=
  let grouped :=
    foldl (fun grouped '(note, url) => group_add grouped url note) [] sources in
  (fun '(url, notes) => {| item_url := url; item_note := join_comma (sorted notes) |})
    <$> grouped.

(** The body of the first loop of [gen_sources]. *)
Definition group_step (grouped : list (string * gset string))
    (p : string * string) : list (string * gset string) :=
  let '(note, url) := p in group_add grouped url note.

(** The distinct elements of a list, in the order of their first
    occurrence. *)
Fixpoint first_occurrences (l : list string) : list string :=
  match l with
  | [] => []
  | x :: l' => x :: filter (fun y => y <> x) (first_occurrences l')
  end.

(** *** gen_sponsors *)

(** [str.isspace] on an ASCII character, which is also what [\s] matches
    in a [str] pattern. *)
Definition isspace (c : ascii) : bool :=
  let n := nat_of_ascii c in
  ((9 <=? n)%nat && (n <=? 13)%nat) || ((28 <=? n)%nat && (n <=? 32)%nat).

Definition starts_with_space (s : string) : bool :=
  match s with
  | String c _ => isspace c
  | EmptyString => false
  end.

(** [re.split(r',\s+', s)]: [cur] is the piece read so far, and [skipping]
    says that the white space of a separator is being consumed.  A comma
    is a separator only when white space follows it. *)
Fixpoint split_go (s cur : string) (skipping : bool) : list string :=
  match s with
  | EmptyString => [cur]
  | String c s' =>
      if skipping && isspace c then split_go s' cur true
      else if Ascii.eqb c "," && starts_with_space s'
      then cur :: split_go s' EmptyString true
      else split_go s' (cur +:+ String c EmptyString) false
  end.

Definition re_split_comma_space (s : string) : list string :=
  split_go s EmptyString false.

Fixpoint lstrip (s : string) : string :=
  match s with
  | String c s' => if isspace c then lstrip s' else s
  | EmptyString => EmptyString
  end.

Fixpoint rstrip (s : string) : string :=
  match s with
  | String c s' =>
      match rstrip s' with
      | EmptyString => if isspace c then EmptyString else String c EmptyString
      | r => String c r
      end
  | EmptyString => EmptyString
  end.

(** [str.strip()] *)
Definition strip (s : string) : string := rstrip (lstrip s).

(** The body of the loop of [gen_sponsors]: the stripped name, when it is
    not empty. *)
Definition sponsor_name (name : string) : option string :=
  let name := strip name in
  if bool_decide (name = EmptyString) then None else Some name.

(** [BillsDetailView.gen_sponsors], collected by [wrapwith=list]; an entry
    [dict(name=name)] is its name.  [re.split] wants a string: the [None]
    that [get_field_text] returns for a blank field is a [TypeError]. *)
Definition gen_sponsors (self : FieldAggregator) : result (list string) :=
  sponsors ← get_field_text self "sponsors";
  match sponsors with
  | Some sponsors => Ok (omap sponsor_name (re_split_comma_space sponsors))
  | None => Raise (TypeError "expected string or bytes-like object")
  end.

(** [BillsSearchTableRow.get_detail_url] *)
Definition get_detail_url (self : FieldAggregator) : result (option string) :=
  get_field_url self "file_number".

End BillsItems.

(* ===================================================================== *)
(** ** The units that the classes of bills.py declare *)
(* ===================================================================== *)

Module Declared.
Import Bills BillsItems ItemGenerator Examples.

(** The keys of the [make_item] decorators, class by class, in the order
    of the source. *)
Definition BillsFields_keys : list string :=
  ["intro_date"; "file_created"; "sources"].

Definition BillsDetailView_keys : list string :=
  ["agenda"; "enactment_date"; "final_action"; "sponsors"; "documents"; "actions"].

Definition BillsDetailTableRow_keys : list string := ["date"; "media"].

Definition BillsDetailAction_keys : list string := ["votes"; "sources"].

(** The value of an item of a bill's detail view: a date, or the list of
    sponsors. *)
Inductive view_item : Type :=
  | ViewDate (dt : option datetime)
  | ViewSponsors (names : list string).

(** The first four units that [BillsDetailView] declares, the ones whose
    code is among the sources: [agenda], [enactment_date], [final_action]
    and [sponsors] ([documents] and [actions] follow them). *)
Definition BillsDetailView_units (datetime_add_tz : datetime -> datetime)
    : list (@generator_unit FieldAggregator view_item) :=
  [ ("agenda", fun self => ViewDate <$> _get_date datetime_add_tz self "agenda");
    ("enactment_date",
      fun self => ViewDate <$> _get_date datetime_add_tz self "enactment_date");
    ("final_action",
      fun self => ViewDate <$> _get_date datetime_add_tz self "final_action");
    ("sponsors", fun self => ViewSponsors <$> gen_sponsors self) ].


(** The first error other than [SkipItem] that a unit raises on the
    record, in declaration order. *)
Fixpoint first_hard_error {Self V} (units : list (@generator_unit Self V))
    (self : Self) : option exn :=
  match units with
  | [] => None
  | (_, gen) :: units' =>
      match gen self with
      | Ok _ | Raise SkipItem => first_hard_error units' self
      | Raise e => Some e
      end
  end.


End Declared.

(* ===================================================================== *)
(** * Properties *)
(* ===================================================================== *)

(** ** The error monad *)

Lemma bind_Ok {A B} (m : result A) (f : A -> result B) (b : B) :
  m ≫= f = Ok b <-> exists a, m = Ok a /\ f a = Ok b.
Proof.
  destruct m as [a|e]; simpl; split.
  - intros Hf. exists a. split; [reflexivity | exact Hf].
  - intros (a' & Ha & Hf). injection Ha as ->. exact Hf.
  - discriminate.
  - intros (a' & Ha & _). discriminate.
Qed.


(** ** FieldAggregator: configuration and field data *)

Module FieldFacts.
Import Examples.

Lemma get_config_value_Ok `{CtxMixin A} (self : A) (key prefix : string) :
  KEY_PREFIX self = Ok prefix ->
  get_config_value self key = getattr (cfg self) (prefix +:+ "_" +:+ upper key).
Proof. intros Hp. unfold get_config_value. rewrite Hp. reflexivity. Qed.

(** C3. With the class's prefix defined, [get_config_value key] returns
    the configuration value stored under [KEY_PREFIX + '_' + key.upper()],
    and fails with the configuration-missing error (which is not
    [SkipItem]) when the configuration has no entry of that name. *)
Theorem get_config_value_lookup
    (self : FieldAggregator) (prefix key : string) :
  KEY_PREFIX self = Ok prefix ->
  let name := prefix +:+ "_" +:+ upper key in
  (forall v, cfg self !! name = Some v -> get_config_value self key = Ok v) /\
  (cfg self !! name = None ->
     get_config_value self key = Raise (ConfigurationMissing name) /\
     ConfigurationMissing name <> SkipItem).
Proof.
  intros Hp name. rewrite (get_config_value_Ok self key prefix Hp).
  fold name. unfold getattr. split.
  - intros v ->. reflexivity.
  - intros ->. split; [reflexivity | discriminate].
Qed.

Lemma get_config_value_lookup_witness :
  KEY_PREFIX example_row = Ok "BILL_DETAIL_TABLE" /\
  get_config_value example_row "datetime_format" = Ok (VStr "%m/%d/%Y") /\
  get_config_value example_row "timezone"
    = Raise (ConfigurationMissing "BILL_DETAIL_TABLE_TIMEZONE").
Proof.
  split; [reflexivity | split].
  - apply (proj1 (get_config_value_lookup example_row "BILL_DETAIL_TABLE"
                    "datetime_format" eq_refl)).
    vm_compute. reflexivity.
  - apply (proj2 (get_config_value_lookup example_row "BILL_DETAIL_TABLE"
                    "timezone" eq_refl)).
    vm_compute. reflexivity.
Defined.

(** C2. When the configured label text of [label] is [label_text],
    [get_field_data label] returns what the record's field data stores
    under [label_text] if it is a key there, and raises [SkipItem] if it is
    not. *)
Theorem get_field_data_lookup
    (self : FieldAggregator) (label label_text : string) :
  get_label_text self label = Ok (VStr label_text) ->
  (forall data, field_data self !! label_text = Some data ->
     get_field_data self label = Ok data) /\
  (field_data self !! label_text = None ->
     get_field_data self label = Raise SkipItem).
Proof.
  intros Hl. unfold get_field_data. rewrite Hl. simpl. split.
  - intros data ->. reflexivity.
  - intros ->. reflexivity.
Qed.

Lemma get_field_data_lookup_witness :
  get_label_text example_row "date" = Ok (VStr "Date") /\
  get_field_data example_row "date" = Ok (text_field "03/14/2019").
Proof.
  split; [vm_compute; reflexivity |].
  apply (proj1 (get_field_data_lookup example_row "date" "Date" eq_refl)).
  vm_compute. reflexivity.
Defined.

(** The label of a field the document does not have is skipped. *)
Lemma get_field_data_absent_example :
  get_field_data
    {| agg_KEY_PREFIX := Ok "BILL_DETAIL_TABLE"; agg_cfg := example_cfg;
       field_data := ∅ |} "date" = Raise SkipItem.
Proof. vm_compute. reflexivity. Qed.

(** A label with no configured text is not a skip. *)
Lemma get_field_data_unconfigured (self : FieldAggregator) (label : string) e :
  get_label_text self label = Raise e ->
  get_field_data self label = Raise e.
Proof. intros Hl. unfold get_field_data. rewrite Hl. reflexivity. Qed.

End FieldFacts.

(** ** The aggregator's iteration *)

Module ItemGeneratorFacts.
Import ItemGenerator.

Section units.
Context {Self V : Type}.
Implicit Types (units : list (@generator_unit Self V)) (self : Self).
Implicit Types (items : list (string * V)).

(** A unit that raises anything but [SkipItem] ends the iteration. *)
Lemma iter_hard_error units self key gen e :
  (key, gen) ∈ units -> gen self = Raise e -> e <> SkipItem ->
  exists e', iter units self = Raise e' /\ e' <> SkipItem.
Proof.
  induction units as [|[k g] units IH]; intros Hin Hg He.
  - inversion Hin.
  - simpl. apply elem_of_cons in Hin as [[= <- <-]|Hin].
    + rewrite Hg. destruct e; try (eexists; split; [reflexivity | discriminate]).
      contradiction.
    + destruct (IH Hin Hg He) as (e' & -> & He').
      destruct (g self) as [v|[]]; simpl;
        eexists; (split; [reflexivity | assumption || discriminate]).
Qed.

Lemma iter_omap units self :
  (forall u e, u ∈ units -> u.2 self = Raise e -> e = SkipItem) ->
  iter units self = Ok (omap (emitted self) units).
Proof.
  induction units as [|[k g] units IH]; intros Hskip; [reflexivity|].
  simpl. unfold emitted at 1. simpl.
  rewrite IH by (intros u e Hu; apply Hskip; right; exact Hu).
  destruct (g self) as [v|e] eqn:Hg; [reflexivity|].
  rewrite (Hskip (k, g) e) by (left || exact Hg). reflexivity.
Qed.

Lemma emitted_key self (u : @generator_unit Self V) kv :
  emitted self u = Some kv -> kv.1 = u.1.
Proof. unfold emitted. destruct (u.2 self); intros [= <-]; reflexivity. Qed.

Lemma omap_emitted_keys_sublist units self :
  sublist (omap (emitted self) units).*1 units.*1.
Proof.
  induction units as [|u units IH]; [constructor|].
  simpl. destruct (emitted self u) as [kv|] eqn:Hu; simpl.
  - rewrite (emitted_key _ _ _ Hu). by constructor.
  - by constructor.
Qed.

Lemma NoDup_fst_functional {B} (l : list (string * B)) k (a b : B) :
  NoDup l.*1 -> (k, a) ∈ l -> (k, b) ∈ l -> a = b.
Proof.
  induction l as [|[k' c] l IH]; intros Hnd Ha Hb; [inversion Ha|].
  simpl in Hnd. apply NoDup_cons in Hnd as [Hk Hnd].
  apply elem_of_cons in Ha as [Ha|Ha];
    apply elem_of_cons in Hb as [Hb|Hb]; simplify_eq.
  - reflexivity.
  - exfalso. apply Hk. apply list_elem_of_fmap. by exists (k', b).
  - exfalso. apply Hk. apply list_elem_of_fmap. by exists (k', a).
  - by apply IH.
Qed.

Lemma dict_snoc items kv : dict (items ++ [kv]) = <[kv.1 := kv.2]> (dict items).
Proof. unfold dict. by rewrite foldl_snoc. Qed.

Lemma dict_lookup_None items k : k ∉ items.*1 -> dict items !! k = None.
Proof.
  induction items as [|[k' v'] items IH] using rev_ind; intros Hk; [done|].
  rewrite dict_snoc. rewrite fmap_app in Hk. simpl in *.
  rewrite lookup_insert_ne.
  - apply IH. intros ?. apply Hk. apply elem_of_app. by left.
  - intros ->. apply Hk. apply elem_of_app. right. by left.
Qed.

(** With distinct keys, [dict] keeps every pair and nothing else. *)
Lemma dict_lookup items k v :
  NoDup items.*1 -> dict items !! k = Some v <-> (k, v) ∈ items.
Proof.
  induction items as [|[k' v'] items IH] using rev_ind; intros Hnd.
  - split; [done | inversion 1].
  - rewrite fmap_app in Hnd. apply NoDup_app in Hnd as (Hnd & Hdisj & _).
    rewrite dict_snoc. simpl. rewrite elem_of_app, list_elem_of_singleton.
    destruct (decide (k' = k)) as [->|Hne].
    + rewrite lookup_insert_eq. split.
      * intros [= ->]. by right.
      * intros [Hin|[= ->]]; [|done]. exfalso.
        apply (Hdisj k); [|by left].
        apply list_elem_of_fmap. by exists (k, v).
    + rewrite lookup_insert_ne by done. rewrite IH by done. split.
      * by left.
      * intros [?|[= ? ?]]; [done | congruence].
Qed.

Lemma dict_size items : NoDup items.*1 -> size (dict items) = length items.
Proof.
  induction items as [|[k v] items IH] using rev_ind; intros Hnd; [done|].
  rewrite fmap_app in Hnd. apply NoDup_app in Hnd as (Hnd & Hdisj & _).
  rewrite dict_snoc, length_app. simpl.
  rewrite map_size_insert_None.
  - rewrite IH by done. lia.
  - apply dict_lookup_None. intros Hk. apply (Hdisj k Hk). by left.
Qed.

(** For a declaration with one unit per output key, on a record where
    no unit fails with an error other than [SkipItem], the iteration
    produces the pairs of the units that did not raise [SkipItem], one per
    unit and in declaration order; a declared key is among the produced keys
    exactly when its unit did not raise [SkipItem]; the produced keys are
    distinct, and the dictionary made of the pairs holds exactly those
    pairs, as many entries as pairs. *)
Theorem iter_contract units self :
  NoDup units.*1 ->
  (forall u e, u ∈ units -> u.2 self = Raise e -> e = SkipItem) ->
  exists items,
    iter units self = Ok items /\
    items = omap (emitted self) units /\
    (forall key gen, (key, gen) ∈ units ->
       (key ∈ items.*1 <-> gen self <> Raise SkipItem)) /\
    NoDup items.*1 /\
    (forall key v, dict items !! key = Some v <-> (key, v) ∈ items) /\
    size (dict items) = length items.
Proof.
  intros Hnd Hskip. exists (omap (emitted self) units).
  assert (Hnd' : NoDup (omap (emitted self) units).*1)
    by (eapply sublist_NoDup; [exact Hnd | apply omap_emitted_keys_sublist]).
  split; [by apply iter_omap|]. split; [reflexivity|].
  split; [|split; [exact Hnd'|split]].
  - intros key gen Hin. split.
    + intros Hk. apply list_elem_of_fmap in Hk as ([k v] & -> & Hkv).
      apply list_elem_of_omap in Hkv as ([k' g] & Hu & Hem).
      pose proof (emitted_key _ _ _ Hem) as Hkey. simpl in Hkey. subst k'.
      rewrite (NoDup_fst_functional units k gen g Hnd Hin Hu).
      unfold emitted in Hem. simpl in Hem.
      destruct (g self); [discriminate | discriminate].
    + intros Hgen. destruct (gen self) as [v|e] eqn:Hg.
      * apply list_elem_of_fmap. exists (key, v). split; [done|].
        apply list_elem_of_omap. exists (key, gen). split; [done|].
        unfold emitted. simpl. by rewrite Hg.
      * exfalso. apply Hgen. f_equal. exact (Hskip (key, gen) e Hin Hg).
  - intros key v. by apply dict_lookup.
  - by apply dict_size.
Qed.

End units.

End ItemGeneratorFacts.

Module ItemGeneratorExamples.
Import Bills ItemGenerator Examples.

Lemma iter_contract_witness :
  let units := BillsDetailView_date_units (localize "US/Central") in
  NoDup units.*1 /\
  (forall u e, u ∈ units -> u.2 example_view = Raise e -> e = SkipItem) /\
  exists items,
    iter units example_view = Ok items /\
    items = omap (emitted example_view) units /\
    (forall key gen, (key, gen) ∈ units ->
       (key ∈ items.*1 <-> gen example_view <> Raise SkipItem)) /\
    NoDup items.*1 /\
    (forall key v, dict items !! key = Some v <-> (key, v) ∈ items) /\
    size (dict items) = length items.
Proof.
  intros units.
  assert (Hnd : NoDup units.*1).
  { apply (bool_decide_unpack _). vm_compute. reflexivity. }
  assert (Hskip : forall u e,
             u ∈ units -> u.2 example_view = Raise e -> e = SkipItem).
  { intros u e Hu. unfold units, BillsDetailView_date_units in Hu.
    repeat (apply elem_of_cons in Hu as [->|Hu]);
      [vm_compute; congruence .. | inversion Hu]. }
  split; [exact Hnd|]. split; [exact Hskip|].
  exact (ItemGeneratorFacts.iter_contract units example_view Hnd Hskip).
Defined.

(** On the sample page the enactment date is the one unit left out. *)
Lemma iter_example_keys :
  (fun items => items.*1) <$>
    iter (BillsDetailView_date_units (localize "US/Central")) example_view
  = Ok ["agenda"; "final_action"].
Proof. vm_compute. reflexivity. Qed.

End ItemGeneratorExamples.

(** ** The search form *)

Module BillsFacts.
Import Bills Examples.

Ltac inv_bind H :=
  repeat match type of H with
         | (_ ≫= _) = Ok _ => apply bind_Ok in H as (? & ? & H)
         end.

(** Evaluate the first configuration lookup of the goal. *)
Ltac config_step :=
  match goal with
  | |- context [get_config_value ?self ?key] =>
      let v := eval vm_compute in (get_config_value self key) in
      replace (get_config_value self key) with v by (vm_compute; reflexivity);
      cbn [mbind mret result_bind result_ret as_key]
  end.

(** *** Mode detection *)

Lemma append_cons (c : ascii) (a b : string) :
  String c a +:+ b = String c (a +:+ b).
Proof. reflexivity. Qed.

Lemma append_assoc (a b c : string) : (a +:+ b) +:+ c = a +:+ (b +:+ c).
Proof.
  induction a as [|x a IH]; [reflexivity|].
  by rewrite !append_cons, IH.
Qed.

Lemma strip_prefix_append (p s : string) : strip_prefix p (p +:+ s) = Some s.
Proof.
  induction p as [|c p IH]; [by destruct s|].
  rewrite append_cons. simpl. by rewrite Ascii.eqb_refl.
Qed.

Lemma until_quote_cons (c : ascii) (s : string) :
  until_quote (String c s)
  = if Ascii.eqb c dq then Some (EmptyString, s)
    else '(lit, tail) ← until_quote s; Some (String c lit, tail).
Proof. reflexivity. Qed.

Lemma until_quote_append (lit tail : string) :
  contains_char dq lit = false ->
  until_quote (lit +:+ String dq tail) = Some (lit, tail).
Proof.
  induction lit as [|c lit IH]; intros Hq.
  - change (EmptyString +:+ String dq tail) with (String dq tail).
    rewrite until_quote_cons. by rewrite Ascii.eqb_refl.
  - change (contains_char dq (String c lit))
      with (Ascii.eqb dq c || contains_char dq lit) in Hq.
    apply orb_false_iff in Hq as [Hc Hq].
    rewrite append_cons, until_quote_cons.
    rewrite Ascii.eqb_sym, Hc. rewrite (IH Hq). reflexivity.
Qed.

(** The expression the form builds selects by the name it was built
    from, provided the name has no double quote to end the literal
    early. *)
Lemma name_query_quoted (name : string) :
  contains_char dq name = false ->
  name_query ("//*[@name=" +:+ quoted name +:+ "]") = Some name.
Proof.
  intros Hq. unfold name_query, quoted.
  change ("//*[@name=" +:+ String dq (name +:+ String dq EmptyString) +:+ "]")
    with (("//*[@name=" +:+ String dq EmptyString)
            +:+ ((name +:+ String dq EmptyString) +:+ "]")).
  rewrite strip_prefix_append. simpl.
  rewrite append_assoc.
  change (String dq EmptyString +:+ "]") with (String dq "]").
  rewrite (until_quote_append name "]" Hq). simpl. reflexivity.
Qed.

Lemma xpath_by_name (root : element) (name : string) :
  contains_char dq name = false ->
  xpath root ("//*[@name=" +:+ quoted name +:+ "]")
  = Ok (filter (fun e => has_name name e = true) (descendants root)).
Proof. intros Hq. unfold xpath. by rewrite name_query_quoted. Qed.

(** C6. With the advanced-only control name configured as the string
    [name], [default_search_is_simple] returns; it returns false exactly
    when some element of the document has a [name] attribute equal to
    [name], and true exactly when none has. *)
Theorem default_search_is_simple_iff (self : Form) (name : string) :
  get_config_value self "advanced_time_period_el_name" = Ok (VStr name) ->
  contains_char dq name = false ->
  exists b,
    default_search_is_simple self = Ok b /\
    (b = false <->
       exists e, e ∈ descendants (doc self) /\ attrib_of e !! "name" = Some name) /\
    (b = true <->
       forall e, e ∈ descendants (doc self) -> attrib_of e !! "name" <> Some name).
Proof.
  intros Hcfg Hq. unfold default_search_is_simple. rewrite Hcfg. simpl.
  rewrite (xpath_by_name _ _ Hq). simpl.
  destruct (filter _ (descendants (doc self))) as [|e0 found] eqn:Hf.
  - exists true. split; [reflexivity|].
    assert (Hnone : forall e, e ∈ descendants (doc self) ->
                      attrib_of e !! "name" <> Some name).
    { intros e He Hn.
      assert (Hin : e ∈ filter (fun e => has_name name e = true)
                          (descendants (doc self))).
      { apply list_elem_of_filter. split; [|exact He].
        unfold has_name. by apply bool_decide_eq_true. }
      rewrite Hf in Hin. inversion Hin. }
    split; split; try done.
    intros (e & He & Hn). exfalso. exact (Hnone e He Hn).
  - exists false. split; [reflexivity|].
    assert (Hin : e0 ∈ filter (fun e => has_name name e = true)
                        (descendants (doc self))) by (rewrite Hf; by left).
    apply list_elem_of_filter in Hin as [Hn He].
    unfold has_name in Hn. apply bool_decide_eq_true in Hn.
    split; split; try done.
    + intros _. by exists e0.
    + intros Hall. exfalso. exact (Hall e0 He Hn).
Qed.

Lemma default_search_is_simple_iff_witness :
  get_config_value (search_form advanced_page) "advanced_time_period_el_name"
    = Ok (VStr advanced_el_name) /\
  contains_char dq advanced_el_name = false /\
  default_search_is_simple (search_form advanced_page) = Ok false /\
  default_search_is_simple (search_form simple_page) = Ok true.
Proof.
  split; [vm_compute; reflexivity|]. split; [vm_compute; reflexivity|].
  split.
  - destruct (default_search_is_simple_iff (search_form advanced_page)
                advanced_el_name eq_refl eq_refl) as (b & Hb & Hfalse & _).
    rewrite Hb. f_equal. apply Hfalse.
    exists (Element "select" {[ "name" := advanced_el_name ]} []).
    split; [|reflexivity].
    simpl. repeat constructor.
  - vm_compute. reflexivity.
Defined.

End BillsFacts.

(** *** Queries *)

Module QueryFacts.
Import Bills Examples.
Import BillsFacts.

Lemma py_or_Ok (a : value) (b : result value) (v : value) :
  py_or a b = Ok v -> (truthy a = true /\ v = a) \/ (truthy a = false /\ b = Ok v).
Proof.
  unfold py_or. destruct (truthy a); [intros [= <-]; by left | by right].
Qed.

(** The shape of what [get_query_advanced] returns. *)
Lemma get_query_advanced_Ok self time_period bodies kwargs q :
  get_query_advanced self time_period bodies kwargs = Ok q ->
  exists static : gmap string value, q = (kwargs ∪ static) ∪ client_state self.
Proof.
  unfold get_query_advanced. intros H. inv_bind H.
  injection H as <-. eexists. reflexivity.
Qed.

Lemma get_query_simple_Ok self time_period bodies kwargs q :
  get_query_simple self time_period bodies kwargs = Ok q ->
  exists static : gmap string value, q = (kwargs ∪ static) ∪ client_state self.
Proof.
  unfold get_query_simple. intros H. inv_bind H.
  injection H as <-. eexists. reflexivity.
Qed.

(** [get_query_advanced] returns whenever a time period is given or
    configured. *)
Lemma get_query_advanced_returns self time_period bodies kwargs :
  truthy time_period = true \/
    (exists v, get_config_value self "time_period" = Ok v) ->
  exists q, get_query_advanced self time_period bodies kwargs = Ok q.
Proof.
  intros Htp. unfold get_query_advanced, py_or.
  destruct (truthy time_period); [eexists; reflexivity|].
  destruct Htp as [?|[v ->]]; [discriminate | eexists; reflexivity].
Qed.

(** C5. A query built by [get_query_simple] or by [get_query_advanced]
    maps every key of the caller's keyword arguments to the caller's value,
    whatever the static parameters and the session state hold for that
    key. *)
Theorem caller_overrides_win
    (self : Form) (time_period bodies : value) (kwargs q : gmap string value) :
  get_query_simple self time_period bodies kwargs = Ok q \/
  get_query_advanced self time_period bodies kwargs = Ok q ->
  forall key v, kwargs !! key = Some v -> q !! key = Some v.
Proof.
  intros [H|H] key v Hk.
  - apply get_query_simple_Ok in H as [static ->].
    by do 2 apply lookup_union_Some_l.
  - apply get_query_advanced_Ok in H as [static ->].
    by do 2 apply lookup_union_Some_l.
Qed.

Lemma caller_overrides_win_witness :
  (exists q, get_query_simple (search_form simple_page) VNone VNone colliding_kwargs
               = Ok q /\
             q !! "__VIEWSTATE" = Some (VStr "override") /\
             q !! "ctl00$ContentPlaceHolder1$btnSearch" = Some (VStr "Go")) /\
  (exists q, get_query_advanced (search_form advanced_page) VNone VNone colliding_kwargs
               = Ok q /\
             q !! "__VIEWSTATE" = Some (VStr "override") /\
             q !! "ctl00$ContentPlaceHolder1$lstMax" = Some (VStr "100")).
Proof.
  split.
  - assert (Hq : exists q, get_query_simple (search_form simple_page) VNone VNone
                             colliding_kwargs = Ok q).
    { unfold get_query_simple, py_or. cbn [truthy].
      do 10 config_step. eexists. reflexivity. }
    destruct Hq as [q Hq]. exists q. split; [exact Hq|].
    split; apply (caller_overrides_win _ _ _ _ _ (or_introl Hq));
      vm_compute; reflexivity.
  - assert (Hq : exists q, get_query_advanced (search_form advanced_page) VNone VNone
                             colliding_kwargs = Ok q).
    { unfold get_query_advanced, py_or. cbn [truthy].
      config_step. eexists. reflexivity. }
    destruct Hq as [q Hq]. exists q. split; [exact Hq|].
    split; apply (caller_overrides_win _ _ _ _ _ (or_intror Hq));
      vm_compute; reflexivity.
Defined.

(** *** The bodies argument *)

Lemma rest_kwargs_bodies (kwargs : gmap string value) (b : value) :
  rest_kwargs (<["bodies" := b]> kwargs) = rest_kwargs kwargs.
Proof.
  unfold rest_kwargs.
  rewrite (delete_delete (<["bodies" := b]> kwargs)), delete_insert_eq.
  by rewrite (delete_delete kwargs).
Qed.

Lemma named_arg_time_period_bodies (kwargs : gmap string value) (b : value) :
  named_arg (<["bodies" := b]> kwargs) "time_period" = named_arg kwargs "time_period".
Proof. unfold named_arg. by rewrite lookup_insert_ne. Qed.

(** C9. [get_query_advanced] returns the same result for any two values
    of [bodies]; so does [get_query], which hands its keyword arguments to
    [get_query_advanced]: the query and the form after the call are the
    same for any two values of [bodies], and the same as with no [bodies]
    at all. *)
Theorem query_independent_of_bodies
    (submit : Form -> gmap string value -> result Form)
    (self : Form) (time_period b1 b2 : value) (kwargs : gmap string value) :
  get_query_advanced self time_period b1 kwargs
    = get_query_advanced self time_period b2 kwargs /\
  get_query submit self (<["bodies" := b1]> kwargs)
    = get_query submit self (<["bodies" := b2]> kwargs) /\
  get_query submit self (<["bodies" := b1]> kwargs)
    = get_query submit self (delete "bodies" kwargs).
Proof.
  split; [reflexivity|].
  assert (Hins : forall b,
    get_query submit self (<["bodies" := b]> kwargs)
    = (simple ← default_search_is_simple self;
       self' ← (if simple : bool then switch_to_advanced_search submit self
                else Ok self);
       query ← get_query_advanced self' (named_arg kwargs "time_period") VNone
                  (rest_kwargs kwargs);
       Ok (query, self'))).
  { intros b. unfold get_query.
    rewrite rest_kwargs_bodies, named_arg_time_period_bodies. reflexivity. }
  split; [by rewrite !Hins|].
  rewrite Hins. unfold get_query.
  assert (Hrest : rest_kwargs (delete "bodies" kwargs) = rest_kwargs kwargs).
  { unfold rest_kwargs. rewrite (delete_delete (delete "bodies" kwargs)).
    rewrite delete_delete_eq. by rewrite (delete_delete kwargs). }
  assert (Htp : named_arg (delete "bodies" kwargs) "time_period"
                = named_arg kwargs "time_period").
  { unfold named_arg. by rewrite lookup_delete_ne. }
  rewrite Hrest, Htp. reflexivity.
Qed.

End QueryFacts.

(** *** Pagination *)

Module PaginationFacts.
Import Bills Examples.
Import BillsFacts.

Section submit.
Variable submit : Form -> gmap string value -> result Form.

(** What [get_pagination_query] returns: the query of [get_query] without
    the two controls, merged once more over the session state of the form
    as [get_query] left it. *)
Lemma get_pagination_query_Ok self kwargs q self' :
  get_pagination_query submit self kwargs = Ok (q, self') ->
  exists q0, get_query submit self kwargs = Ok (q0, self') /\
    q = delete btnSearch2 (delete lstMax_ClientState q0) ∪ client_state self'.
Proof.
  unfold get_pagination_query. intros H.
  apply bind_Ok in H as ([q0 s0] & Hq & H). injection H as <- <-.
  by exists q0.
Qed.

(** The last merge gives each of the two controls the value the session
    state has for it: a control that the state holds is in the pagination
    query, and one that the state lacks is not. *)
Lemma pagination_controls_follow_state self kwargs q self' key :
  get_pagination_query submit self kwargs = Ok (q, self') ->
  key = btnSearch2 \/ key = lstMax_ClientState ->
  q !! key = client_state self' !! key.
Proof.
  intros H Hkey. apply get_pagination_query_Ok in H as (q0 & _ & ->).
  rewrite lookup_union_r; [reflexivity|].
  destruct Hkey as [->| ->].
  - by rewrite lookup_delete_eq.
  - rewrite lookup_delete_ne by done. by rewrite lookup_delete_eq.
Qed.

(** When the session state of the form holds neither of the two one-time
    controls, the pagination query contains neither, whatever the
    overrides are. *)
Lemma pagination_without_controls self kwargs q self' :
  get_pagination_query submit self kwargs = Ok (q, self') ->
  client_state self' !! btnSearch2 = None ->
  client_state self' !! lstMax_ClientState = None ->
  q !! btnSearch2 = None /\ q !! lstMax_ClientState = None.
Proof.
  intros H H1 H2.
  rewrite (pagination_controls_follow_state _ _ _ _ _ H (or_introl eq_refl)).
  rewrite (pagination_controls_follow_state _ _ _ _ _ H (or_intror eq_refl)).
  by split.
Qed.

End submit.

(** C4, at a session state that holds the max-results control: the
    pagination query of a form in advanced mode, called with no overrides,
    still contains [ctl00_ContentPlaceHolder1_lstMax_ClientState], while
    the query had it removed before the last merge with the state. *)
Theorem get_pagination_query_keeps_state_control :
  client_state (search_form advanced_page) !! lstMax_ClientState = Some (VStr "{}") /\
  exists q self',
    get_pagination_query scripted_submit (search_form advanced_page) ∅
      = Ok (q, self') /\
    q !! lstMax_ClientState = Some (VStr "{}") /\
    q !! btnSearch2 = None.
Proof.
  split; [vm_compute; reflexivity|].
  assert (Hq : exists q,
            get_pagination_query scripted_submit (search_form advanced_page) ∅
            = Ok (q, search_form advanced_page)).
  { unfold get_pagination_query, get_query.
    replace (default_search_is_simple (search_form advanced_page)) with (Ok false)
      by (vm_compute; reflexivity).
    cbn [mbind mret result_bind result_ret].
    unfold get_query_advanced, py_or, named_arg.
    rewrite lookup_empty. cbn [default truthy].
    config_step. eexists. reflexivity. }
  destruct Hq as [q Hq]. exists q, (search_form advanced_page).
  split; [exact Hq|].
  rewrite (pagination_controls_follow_state _ _ _ _ _ _ Hq (or_introl eq_refl)).
  rewrite (pagination_controls_follow_state _ _ _ _ _ _ Hq (or_intror eq_refl)).
  split; vm_compute; reflexivity.
Qed.

End PaginationFacts.

(** ** Dates *)

Module DateFacts.
Import Bills People Examples.

(** What [strftime] writes for the date directives depends on the
    calendar date only. *)
Lemma strftime_iso_date (dt dt' : datetime) :
  date dt = date dt' ->
  strftime dt "%Y-%m-%d" = strftime dt' "%Y-%m-%d".
Proof.
  unfold date. intros [= Hy Hm Hd].
  unfold strftime. simpl. unfold format_directive.
  by rewrite Hy, Hm, Hd.
Qed.

(** C7. With the date format configured as [%m/%d/%Y] and a field whose
    text is [03/14/2019], and a time-zone step that keeps the calendar
    date, [_get_date] returns a datetime whose date is 2019-03-14, and
    [stringify_date] writes it as [2019-03-14]. *)
Theorem get_date_round_trip
    (datetime_add_tz : datetime -> datetime)
    (self : FieldAggregator) (label : string) :
  (forall dt, date (datetime_add_tz dt) = date dt) ->
  get_config_value self "datetime_format" = Ok (VStr "%m/%d/%Y") ->
  get_field_text self label = Ok (Some "03/14/2019") ->
  exists dt,
    _get_date datetime_add_tz self label = Ok (Some dt) /\
    date dt = (2019, 3, 14)%Z /\
    stringify_date (Some dt) = Ok "2019-03-14".
Proof.
  intros Htz Hfmt Htext.
  set (parsed := {| year := 2019; month := 3; day := 14;
                    hour := 0; minute := 0; second := 0; tzinfo := None |}).
  assert (Hparse : strptime "03/14/2019" "%m/%d/%Y" = Ok parsed)
    by (vm_compute; reflexivity).
  exists (datetime_add_tz parsed). split; [|split].
  - unfold _get_date. rewrite Hfmt. unfold mbind, result_bind.
    rewrite Htext, Hparse. reflexivity.
  - rewrite Htz. reflexivity.
  - unfold stringify_date.
    rewrite (strftime_iso_date _ parsed (Htz parsed)).
    vm_compute. reflexivity.
Qed.

Lemma get_date_round_trip_witness :
  (forall dt, date (localize "US/Central" dt) = date dt) /\
  get_config_value example_row "datetime_format" = Ok (VStr "%m/%d/%Y") /\
  get_field_text example_row "date" = Ok (Some "03/14/2019") /\
  exists dt,
    _get_date (localize "US/Central") example_row "date" = Ok (Some dt) /\
    date dt = (2019, 3, 14)%Z /\
    stringify_date (Some dt) = Ok "2019-03-14".
Proof.
  assert (Htz : forall dt, date (localize "US/Central" dt) = date dt)
    by (intros dt; reflexivity).
  assert (Hfmt : get_config_value example_row "datetime_format"
                 = Ok (VStr "%m/%d/%Y")) by (vm_compute; reflexivity).
  assert (Htext : get_field_text example_row "date" = Ok (Some "03/14/2019"))
    by (vm_compute; reflexivity).
  split; [exact Htz|]. split; [exact Hfmt|]. split; [exact Htext|].
  exact (get_date_round_trip (localize "US/Central") example_row "date"
           Htz Hfmt Htext).
Defined.

(** A blank field gives no date, and a missing date is skipped on
    output. *)
Lemma get_date_blank datetime_add_tz self label fd fmt :
  get_config_value self "datetime_format" = Ok fmt ->
  get_field_data self label = Ok (Some fd) ->
  is_blank fd = true ->
  _get_date datetime_add_tz self label = Ok None.
Proof.
  intros Hfmt Hfd Hb. unfold _get_date, get_field_text.
  rewrite Hfmt. simpl. rewrite Hfd. simpl. by rewrite Hb.
Qed.

Lemma stringify_date_None : stringify_date None = Raise SkipItem.
Proof. reflexivity. Qed.

End DateFacts.

(** ** The organization cache *)

Module PeopleFacts.
Import People.

Section converter.
Variable get_org_classification : string -> string.
Variable person_sources : list Source.

#[local] Abbreviation get_org_traced :=
  (get_org_traced get_org_classification person_sources).
#[local] Abbreviation get_org := (get_org get_org_classification person_sources).
#[local] Abbreviation get_orgs := (get_orgs get_org_classification person_sources).

Lemma foldl_add_source (org : Organization) (srcs : list Source) :
  sources (foldl add_source org srcs) = (sources org ++ srcs)%list /\
  name (foldl add_source org srcs) = name org /\
  _id (foldl add_source org srcs) = _id org.
Proof.
  revert org. induction srcs as [|s srcs IH]; intros org; simpl.
  - by rewrite app_nil_r.
  - destruct (IH (add_source org s)) as (-> & -> & ->). simpl.
    by rewrite <- app_assoc.
Qed.

(** A hit returns the cached organization and changes nothing. *)
Lemma get_org_hit st org_name o :
  org_cache st !! org_name = Some o ->
  get_org_traced st org_name = Ok (ReturnCacheHit, (false, Some o), st).
Proof. intros Hc. unfold People.get_org_traced. by rewrite Hc. Qed.

(** A miss constructs one organization, caches it under the name and
    returns it from the second [return]. *)
Lemma get_org_miss st org_name :
  org_cache st !! org_name = None ->
  exists o,
    get_org_traced st org_name
      = Ok (ReturnAfterCaching, (true, Some o),
            {| org_cache := <[org_name := o]> (org_cache st);
               constructed := S (constructed st) |}) /\
    name o = org_name /\ _id o = constructed st /\
    classification o = get_org_classification org_name /\
    sources o = person_sources.
Proof.
  intros Hc. unfold People.get_org_traced. rewrite Hc.
  eexists. split; [reflexivity|].
  destruct (foldl_add_source
              {| _id := constructed st; name := org_name;
                 classification := get_org_classification org_name;
                 sources := [] |} person_sources) as (Hs & Hn & Hi).
  rewrite Hs, Hn, Hi. simpl. repeat split.
  clear. induction person_sources as [|s l IH]; simpl; [done|].
  assert (Hcl : forall o, classification (foldl add_source o l) = classification o).
  { clear. induction l as [|s' l IH]; intros o; simpl; [done|]. by rewrite IH. }
  by rewrite Hcl.
Qed.

(** [get_org] never raises. *)
Lemma get_org_total st org_name :
  exists created o st',
    get_org st org_name = Ok (created, Some o, st') /\
    org_cache st' !! org_name = Some o /\
    org_cache st ⊆ org_cache st' /\
    constructed st' + size (org_cache st) = constructed st + size (org_cache st').
Proof.
  unfold People.get_org.
  destruct (org_cache st !! org_name) as [o|] eqn:Hc.
  - rewrite (get_org_hit _ _ _ Hc). simpl.
    exists false, o, st. repeat split; try done.
  - destruct (get_org_miss _ _ Hc) as (o & -> & _). simpl.
    eexists true, o, _. split; [reflexivity|]. simpl.
    split; [by rewrite lookup_insert_eq|].
    split; [by apply insert_subseteq|].
    rewrite map_size_insert_None by done. lia.
Qed.

(** Over a run of calls the cache only grows, and each construction adds
    one entry to it. *)
Lemma get_orgs_grows st names :
  org_cache st ⊆ org_cache (get_orgs st names) /\
  constructed (get_orgs st names) + size (org_cache st)
    = constructed st + size (org_cache (get_orgs st names)).
Proof.
  revert st. induction names as [|n names IH]; intros st; simpl; [done|].
  destruct (get_org_total st n) as (c & o & st' & -> & _ & Hsub & Hcount).
  destruct (IH st') as [Hsub' Hcount'].
  split; [by etrans | lia].
Qed.

(** C8. The first call of [get_org] for a name that is not in the cache
    constructs one organization, stores it under the name and returns it
    with created true; for a name in the cache it returns the cached
    organization with created false and constructs nothing.  After any run
    of further calls every entry of the cache is still there with the same
    organization, a call with the same name returns that organization with
    created false, and the run has constructed as many organizations as it
    has added names to the cache. *)
Theorem get_org_creates_once (st : ConvState) (org_name : string)
    (names : list string) :
  exists created o st1,
    get_org st org_name = Ok (created, Some o, st1) /\
    (org_cache st !! org_name = None ->
       created = true /\ name o = org_name /\
       org_cache st1 = <[org_name := o]> (org_cache st) /\
       constructed st1 = S (constructed st)) /\
    (forall o', org_cache st !! org_name = Some o' ->
       created = false /\ o = o' /\ st1 = st) /\
    let st2 := get_orgs st1 names in
    org_cache st ⊆ org_cache st1 /\
    org_cache st1 ⊆ org_cache st2 /\
    get_org st2 org_name = Ok (false, Some o, st2) /\
    constructed st2 + size (org_cache st1)
      = constructed st1 + size (org_cache st2).
Proof.
  destruct (get_org_total st org_name)
    as (created & o & st1 & Hcall & Hin & Hsub & _).
  exists created, o, st1. split; [exact Hcall|].
  unfold People.get_org in Hcall.
  split; [|split].
  - intros Hc. destruct (get_org_miss _ _ Hc) as (o' & Hm & Hn & _).
    rewrite Hm in Hcall. simpl in Hcall. injection Hcall as <- <- <-.
    by repeat split.
  - intros o' Hc. rewrite (get_org_hit _ _ _ Hc) in Hcall. simpl in Hcall.
    injection Hcall as <- <- <-. by repeat split.
  - intros st2. destruct (get_orgs_grows st1 names) as [Hsub2 Hcount].
    split; [exact Hsub|]. split; [exact Hsub2|]. split; [|exact Hcount].
    assert (Hin2 : org_cache st2 !! org_name = Some o)
      by (eapply lookup_weaken; [exact Hin | exact Hsub2]).
    unfold People.get_org. by rewrite (get_org_hit _ _ _ Hin2).
Qed.

(** C10. [get_org] leaves through the first or the second [return],
    never through the third, the one behind the loop that adds the detail
    sources only; on a miss it leaves through the second, and the
    organization it has created and cached carries exactly the person's
    sources, in order. *)
Theorem get_org_returns_before_detail_sources (st : ConvState)
    (org_name : string) :
  exists exit created o st',
    get_org_traced st org_name = Ok (exit, (created, Some o), st') /\
    exit <> ReturnAfterDetailSources /\
    (org_cache st !! org_name = None ->
       exit = ReturnAfterCaching /\ created = true /\
       sources o = person_sources /\
       org_cache st' !! org_name = Some o).
Proof.
  destruct (org_cache st !! org_name) as [o|] eqn:Hc.
  - exists ReturnCacheHit, false, o, st.
    split; [by apply get_org_hit|]. split; [discriminate | discriminate].
  - destruct (get_org_miss _ _ Hc) as (o & Hm & _ & _ & _ & Hs).
    eexists ReturnAfterCaching, true, o, _.
    split; [exact Hm|]. split; [discriminate|].
    intros _. repeat split; [exact Hs|]. simpl. by rewrite lookup_insert_eq.
Qed.

End converter.

End PeopleFacts.

(** ** Field text, urls and labels *)

Module FieldAccessFacts.
Import Examples.

Lemma upper_ascii_idemp (c : ascii) : upper_ascii (upper_ascii c) = upper_ascii c.
Proof. destruct c as [[] [] [] [] [] [] [] []]; reflexivity. Qed.

Lemma upper_idemp (s : string) : upper (upper s) = upper s.
Proof.
  induction s as [|c s IH]; simpl; [reflexivity|].
  by rewrite upper_ascii_idemp, IH.
Qed.

Lemma upper_app (a b : string) : upper (a +:+ b) = upper a +:+ upper b.
Proof.
  induction a as [|c a IH]; [reflexivity|].
  change (String c a +:+ b) with (String c (a +:+ b)).
  simpl. rewrite IH. reflexivity.
Qed.

(** The label text of a field is the configuration entry
    [<KEY_PREFIX>_TEXT_<KEY>], with the key in upper case; keys that differ
    in letter case only name the same entry. *)
Theorem get_label_text_name (self : FieldAggregator) (prefix : string) :
  KEY_PREFIX self = Ok prefix ->
  (forall key,
     get_label_text self key
     = getattr (cfg self) (prefix +:+ "_TEXT_" +:+ upper key)) /\
  (forall key key', upper key = upper key' ->
     get_label_text self key = get_label_text self key').
Proof.
  intros Hp.
  assert (Hname : forall key,
    get_label_text self key
    = getattr (cfg self) (prefix +:+ "_TEXT_" +:+ upper key)).
  { intros key. unfold get_label_text, get_config_value. rewrite Hp.
    change (Ok prefix ≫= _)
      with (getattr (cfg self) (prefix +:+ "_" +:+ upper ("TEXT_" +:+ upper key))).
    rewrite upper_app, upper_idemp. reflexivity. }
  split; [exact Hname|].
  intros key key' Heq. by rewrite !Hname, Heq.
Qed.

Lemma get_label_text_name_witness :
  KEY_PREFIX example_row = Ok "BILL_DETAIL_TABLE" /\
  get_label_text example_row "Date" = Ok (VStr "Date") /\
  get_label_text example_row "dAtE" = get_label_text example_row "date".
Proof.
  pose proof (get_label_text_name example_row "BILL_DETAIL_TABLE" eq_refl)
    as [Hname Hcase].
  split; [reflexivity|]. split.
  - rewrite Hname. vm_compute. reflexivity.
  - apply Hcase. vm_compute. reflexivity.
Defined.

(** [get_field_text] returns a text exactly when the field is there, is
    not [None], is not blank, and has that text: a blank field never gives
    its text. *)
Theorem get_field_text_Some (self : FieldAggregator) (label text : string) :
  get_field_text self label = Ok (Some text) <->
  exists fd, get_field_data self label = Ok (Some fd) /\
             is_blank fd = false /\ get_text fd = text.
Proof.
  unfold get_field_text.
  destruct (get_field_data self label) as [[fd|]|e]; simpl.
  - destruct (is_blank fd) eqn:Hb; split.
    + discriminate.
    + intros (fd' & [= <-] & Hb' & _). congruence.
    + intros [= <-]. by exists fd.
    + intros (fd' & [= <-] & _ & <-). reflexivity.
  - split; [discriminate|]. intros (fd & ? & _). discriminate.
  - split; [discriminate|]. intros (fd & ? & _). discriminate.
Qed.

(** [get_field_text] skips exactly when [get_field_data] skips, and
    raises whatever [get_field_data] raises. *)
Lemma get_field_text_Raise (self : FieldAggregator) (label : string) e :
  get_field_text self label = Raise e <-> get_field_data self label = Raise e.
Proof.
  unfold get_field_text.
  destruct (get_field_data self label) as [[fd|]|e']; simpl.
  - destruct (is_blank fd); split; discriminate.
  - split; discriminate.
  - split; intros [= ->]; reflexivity.
Qed.

(** [get_field_url] never returns an empty url: a url it returns is the
    first url of the field, and it is not the empty string. *)
Theorem get_field_url_nonempty (self : FieldAggregator) (label u : string) :
  get_field_url self label = Ok (Some u) <->
  exists fd, get_field_data self label = Ok (Some fd) /\
             get_url fd = Some u /\ u <> EmptyString.
Proof.
  unfold get_field_url.
  destruct (get_field_data self label) as [[fd|]|e]; simpl.
  - destruct (get_url fd) as [u'|] eqn:Hu.
    + destruct (String.eqb u' EmptyString) eqn:He.
      * apply String.eqb_eq in He as ->. split; [discriminate|].
        intros (fd' & [= <-] & Hu' & Hne). congruence.
      * apply String.eqb_neq in He. split.
        -- intros [= <-]. by exists fd.
        -- intros (fd' & [= <-] & Hu' & _). congruence.
    + split; [discriminate|]. intros (fd' & [= <-] & Hu' & _). congruence.
  - split; [discriminate|]. intros (fd & ? & _). discriminate.
  - split; [discriminate|]. intros (fd & ? & _). discriminate.
Qed.

End FieldAccessFacts.

(** ** The media of an action row *)

Module MediaFacts.
Import Bills Examples.

Section row.
Variable head_content_type : string -> result string.

#[local] Abbreviation _get_media := (_get_media head_content_type).
#[local] Abbreviation gen_media_loop := (gen_media_loop head_content_type).
#[local] Abbreviation gen_media := (gen_media head_content_type).


Lemma gen_media_loop_not_SkipItem self labels :
  gen_media_loop self labels <> Raise SkipItem.
Proof.
  induction labels as [|label labels IH]; simpl; [discriminate|].
  destruct label as [|b|label|l]; try discriminate.
  destruct (_get_media self label) as [m|e].
  - destruct (Bills.gen_media_loop _ self labels) as [ms|e'] eqn:Hl;
      simpl; [discriminate|].
    intros [= ->]. by apply IH.
  - destruct e; try discriminate. exact IH.
Qed.


(** [gen_media] never raises [SkipItem]: a label whose field is absent or
    has no url is left out of the list, and the [media] item itself is
    not skipped. *)
Theorem gen_media_never_skips (self : FieldAggregator) (prefix : string) :
  KEY_PREFIX self = Ok prefix ->
  gen_media self <> Raise SkipItem.
Proof.
  intros Hp. unfold Bills.gen_media.
  destruct (get_config_value self "pupa_media") as [v|e] eqn:Hc; simpl.
  - destruct v as [|b|s|l]; simpl; try discriminate;
      apply gen_media_loop_not_SkipItem.
  - intros [= ->].
    rewrite (FieldFacts.get_config_value_Ok self _ prefix Hp) in Hc.
    unfold getattr in Hc.
    destruct (cfg self !! (prefix +:+ "_" +:+ upper "pupa_media")); discriminate.
Qed.


End row.

Lemma gen_media_never_skips_witness :
  KEY_PREFIX example_row = Ok "BILL_DETAIL_TABLE" /\
  gen_media probe example_row <> Raise SkipItem.
Proof.
  split; [reflexivity|].
  exact (gen_media_never_skips probe example_row "BILL_DETAIL_TABLE" eq_refl).
Defined.


End MediaFacts.

(** ** The sources of a bill *)

Module SourcesFacts.
Import BillsItems.

Implicit Types (grouped : list (string * gset string)).
Implicit Types (sources : list (string * string)).
#[local] Open Scope list_scope.
#[local] Abbreviation step := group_step.

Lemma gen_sources_eq sources :
  gen_sources sources
  = (fun '(url, notes) =>
       {| item_url := url; item_note := join_comma (sorted notes) |})
      <$> foldl step [] sources.
Proof. reflexivity. Qed.

Lemma filter_all {A} (P : A -> Prop) `{forall x, Decision (P x)} (l : list A) :
  (forall x, x ∈ l -> P x) -> filter P l = l.
Proof.
  induction l as [|x l IH]; intros Hall; [reflexivity|].
  rewrite filter_cons_True by (apply Hall; by left).
  f_equal. apply IH. intros y Hy. apply Hall. by right.
Qed.

(** Adding a note keeps the urls in place and puts a new url last. *)
Lemma group_add_keys grouped url note :
  (group_add grouped url note).*1
  = if decide (url ∈ grouped.*1) then grouped.*1 else grouped.*1 ++ [url].
Proof.
  induction grouped as [|[u S] grouped IH]; [reflexivity|].
  cbn [group_add fmap list_fmap fst].
  case_bool_decide as Hu; cbn [fmap list_fmap fst].
  - subst u. rewrite decide_True by (by left). reflexivity.
  - fold (fst <$> group_add grouped url note). fold (fst <$> grouped).
    rewrite IH.
    destruct (decide (url ∈ grouped.*1)) as [Hin|Hnin].
    + rewrite decide_True by (by right). reflexivity.
    + rewrite decide_False; [reflexivity|].
      intros [->|?]%elem_of_cons; [by apply Hu | by apply Hnin].
Qed.

Lemma first_occurrences_elem_of (l : list string) x :
  x ∈ first_occurrences l <-> x ∈ l.
Proof.
  induction l as [|y l IH]; simpl; [reflexivity|].
  rewrite !elem_of_cons, list_elem_of_filter, IH.
  destruct (decide (x = y)); intuition congruence.
Qed.

Lemma first_occurrences_NoDup (l : list string) : NoDup (first_occurrences l).
Proof.
  induction l as [|y l IH]; simpl; constructor.
  - rewrite list_elem_of_filter. intros [Hne _]. by apply Hne.
  - by apply NoDup_filter.
Qed.

Lemma foldl_step_keys sources grouped :
  (foldl step grouped sources).*1
  = grouped.*1
    ++ filter (fun u => u ∉ grouped.*1) (first_occurrences sources.*2).
Proof.
  revert grouped. induction sources as [|[note url] sources IH]; intros grouped.
  - simpl. by rewrite app_nil_r.
  - simpl. rewrite IH, group_add_keys.
    destruct (decide (url ∈ grouped.*1)) as [Hin|Hnin].
    + rewrite filter_cons_False by (intros Hn; by apply Hn).
      rewrite list_filter_filter_l; [reflexivity|].
      intros u Hu ->. by apply Hu.
    + rewrite filter_cons_True by done.
      rewrite <- app_assoc. simpl. do 2 f_equal.
      rewrite list_filter_filter. apply list_filter_iff.
      intros u. rewrite elem_of_app, list_elem_of_singleton. intuition.
Qed.

(** The entries that [gen_sources] emits have distinct urls: one entry per
    url of the sources, in the order in which the urls first occur. *)
Theorem gen_sources_urls sources :
  item_url <$> gen_sources sources = first_occurrences sources.*2 /\
  NoDup (item_url <$> gen_sources sources) /\
  (forall url, url ∈ item_url <$> gen_sources sources <-> url ∈ sources.*2).
Proof.
  assert (Hurls : item_url <$> gen_sources sources = first_occurrences sources.*2).
  { rewrite gen_sources_eq, <- list_fmap_compose.
    transitivity ((foldl step [] sources).*1).
    - apply list_fmap_ext. intros _ [u S] _. reflexivity.
    - rewrite foldl_step_keys. simpl.
      apply filter_all. intros u _ Hu. inversion Hu. }
  rewrite Hurls. split; [reflexivity|]. split.
  - apply first_occurrences_NoDup.
  - intros url. apply first_occurrences_elem_of.
Qed.

Lemma group_add_lookup grouped url note u :
  (list_to_map (group_add grouped url note) : gmap string (gset string)) !! u
  = if decide (u = url)
    then Some ({[ note ]} ∪ default ∅ ((list_to_map grouped : gmap _ _) !! url))
    else (list_to_map grouped : gmap _ _) !! u.
Proof.
  induction grouped as [|[u0 S] grouped IH].
  - simpl. destruct (decide (u = url)) as [->|Hne].
    + rewrite lookup_insert_eq, lookup_empty. simpl. by rewrite (right_id_L ∅ (∪)).
    + by rewrite lookup_insert_ne.
  - cbn [group_add]. case_bool_decide as Hu.
    + subst u0. rewrite !list_to_map_cons.
      destruct (decide (u = url)) as [->|Hne].
      * by rewrite !lookup_insert_eq.
      * by rewrite !lookup_insert_ne.
    + rewrite !list_to_map_cons.
      destruct (decide (u = u0)) as [->|Hne0].
      * rewrite !lookup_insert_eq. by rewrite decide_False.
      * rewrite (lookup_insert_ne _ u0 u) by done. rewrite IH.
        rewrite (lookup_insert_ne _ u0 url) by done.
        by rewrite (lookup_insert_ne _ u0 u).
Qed.

Lemma foldl_step_lookup sources grouped u (S : gset string) :
  (list_to_map (foldl step grouped sources) : gmap _ _) !! u = Some S ->
  forall n, n ∈ S <->
    (n, u) ∈ sources \/ n ∈ default ∅ ((list_to_map grouped : gmap _ _) !! u).
Proof.
  revert grouped. induction sources as [|[n0 u0] sources IH]; intros grouped HS n.
  - simpl in HS. rewrite HS. simpl. split; [by right|].
    intros [Hin|?]; [inversion Hin | done].
  - simpl in HS. rewrite (IH _ HS n), group_add_lookup, elem_of_cons.
    destruct (decide (u = u0)) as [->|Hne]; simpl.
    + rewrite elem_of_union, elem_of_singleton. split.
      * intros [?|[->|?]]; [by left; right | by left; left | by right].
      * intros [[[= ->]|?]|?]; [by right; left | by left | by right; right].
    + split.
      * intros [?|?]; [by left; right | by right].
      * intros [[[= _ ?]|?]|?]; [done | by left | by right].
Qed.

Lemma foldl_step_NoDup sources : NoDup (foldl step [] sources).*1.
Proof.
  rewrite foldl_step_keys. simpl.
  apply NoDup_filter, first_occurrences_NoDup.
Qed.

Lemma sorted_spec (S : gset string) :
  Sorted String.le (sorted S) /\ NoDup (sorted S) /\
  forall n, n ∈ sorted S <-> n ∈ S.
Proof.
  unfold sorted. split; [apply (Sorted_merge_sort _)|]. split.
  - rewrite merge_sort_Permutation. apply NoDup_elements.
  - intros n. rewrite merge_sort_Permutation. apply elem_of_elements.
Qed.

(** The note of each entry is made of the notes that the sources give for
    the entry's url, each once, in ascending order, joined by a comma and
    a space. *)
Theorem gen_sources_notes sources :
  Forall (fun it =>
            exists notes,
              item_note it = join_comma notes /\
              Sorted String.le notes /\ NoDup notes /\
              forall n, n ∈ notes <-> (n, item_url it) ∈ sources)
         (gen_sources sources).
Proof.
  rewrite gen_sources_eq. apply Forall_fmap, Forall_forall.
  intros [u S] Hin. simpl. exists (sorted S).
  destruct (sorted_spec S) as (Hsorted & Hnd & Hmem).
  split; [reflexivity|]. split; [exact Hsorted|]. split; [exact Hnd|].
  intros n. rewrite Hmem.
  assert (HS : (list_to_map (foldl step [] sources) : gmap _ _) !! u = Some S)
    by (apply elem_of_list_to_map_1; [apply foldl_step_NoDup | exact Hin]).
  rewrite (foldl_step_lookup _ _ _ _ HS n). simpl. rewrite lookup_empty. simpl.
  split; [intros [?|?]; [done | set_solver] | by left].
Qed.

Lemma group_add_fresh grouped url note :
  url ∉ grouped.*1 -> group_add grouped url note = grouped ++ [(url, {[ note ]})].
Proof.
  induction grouped as [|[u S] grouped IH]; intros Hnin; [reflexivity|].
  cbn [group_add]. rewrite bool_decide_eq_false_2.
  - simpl. f_equal. apply IH. intros ?. apply Hnin. by right.
  - intros ->. apply Hnin. by left.
Qed.

Lemma foldl_step_fresh sources grouped :
  NoDup (grouped.*1 ++ sources.*2) ->
  foldl step grouped sources
  = grouped ++ ((fun '(note, url) => (url, {[ note ]})) <$> sources).
Proof.
  revert grouped. induction sources as [|[n u] sources IH]; intros grouped Hnd.
  - simpl. by rewrite app_nil_r.
  - simpl in *. rewrite group_add_fresh.
    + rewrite IH; [by rewrite <- app_assoc|].
      rewrite fmap_app. simpl. by rewrite <- app_assoc.
    + apply NoDup_app in Hnd as (_ & Hdisj & _).
      intros Hin. apply (Hdisj u Hin). by left.
Qed.

(** When no two sources share a url, [gen_sources] emits the sources
    themselves, in their order, each with its own note. *)
Theorem gen_sources_distinct_urls sources :
  NoDup sources.*2 ->
  gen_sources sources
  = (fun '(note, url) => {| item_url := url; item_note := note |}) <$> sources.
Proof.
  intros Hnd. rewrite gen_sources_eq, foldl_step_fresh by exact Hnd.
  simpl. rewrite <- list_fmap_compose. apply list_fmap_ext.
  intros _ [n u] _. simpl. unfold sorted. by rewrite elements_singleton.
Qed.

Lemma gen_sources_distinct_urls_witness :
  let sources := [("bills search", "https://example.org/Legislation.aspx");
                  ("bill detail", "https://example.org/LegislationDetail.aspx")] in
  NoDup sources.*2 /\
  gen_sources sources
  = [ {| item_url := "https://example.org/Legislation.aspx";
         item_note := "bills search" |};
      {| item_url := "https://example.org/LegislationDetail.aspx";
         item_note := "bill detail" |} ].
Proof.
  intros sources.
  assert (Hnd : NoDup sources.*2)
    by (apply (bool_decide_unpack _); vm_compute; reflexivity).
  split; [exact Hnd|].
  rewrite (gen_sources_distinct_urls sources Hnd). reflexivity.
Defined.

(** Two notes for one url are merged in one entry, in sorted order. *)
Lemma gen_sources_example :
  gen_sources [("bills search table", "https://example.org/a");
               ("bill detail", "https://example.org/b");
               ("bills search", "https://example.org/a")]
  = [ {| item_url := "https://example.org/a";
         item_note := "bills search, bills search table" |};
      {| item_url := "https://example.org/b"; item_note := "bill detail" |} ].
Proof. vm_compute. reflexivity. Qed.

End SourcesFacts.

(** ** The sponsors of a bill *)

Module SponsorsFacts.
Import BillsItems Examples.












(** A sponsors field that is there but blank (or [None]) makes
    [gen_sponsors] fail with a [TypeError], which is not a skip; a field
    that is absent is skipped. *)
Theorem gen_sponsors_blank (self : FieldAggregator) :
  (get_field_text self "sponsors" = Ok None ->
   exists msg, gen_sponsors self = Raise (TypeError msg)) /\
  (get_field_data self "sponsors" = Raise SkipItem ->
   gen_sponsors self = Raise SkipItem).
Proof.
  unfold gen_sponsors. split.
  - intros ->. simpl. by eexists.
  - intros Hd. apply FieldAccessFacts.get_field_text_Raise in Hd.
    by rewrite Hd.
Qed.

End SponsorsFacts.

(** ** The aggregator's iteration on every record *)

Module IterationFacts.
Import Bills BillsItems ItemGenerator Examples Declared.
Import ItemGeneratorFacts.
#[local] Open Scope list_scope.

Section units.
Context {Self V : Type}.
Implicit Types (units : list (@generator_unit Self V)) (self : Self).
Implicit Types (items : list (string * V)).

Lemma first_hard_error_None units self :
  first_hard_error units self = None ->
  forall u e, u ∈ units -> u.2 self = Raise e -> e = SkipItem.
Proof.
  induction units as [|[k g] units IH]; intros Hn u e Hu He; [inversion Hu|].
  simpl in Hn. apply elem_of_cons in Hu as [->|Hu].
  - simpl in He. rewrite He in Hn. by destruct e.
  - apply (IH (ltac:(by destruct (g self) as [|[]])) u e Hu He).
Qed.

Lemma first_hard_error_Some units self e :
  first_hard_error units self = Some e ->
  iter units self = Raise e /\ e <> SkipItem.
Proof.
  induction units as [|[k g] units IH]; intros He; [discriminate|].
  simpl in *. destruct (g self) as [v|e0].
  - destruct (IH He) as [-> Hne]. by split.
  - destruct e0; try (injection He as <-; by split).
    exact (IH He).
Qed.


Lemma dict_dom items : dom (dict items) = list_to_set items.*1.
Proof.
  induction items as [|[k v] items IH] using rev_ind; [apply dom_empty_L|].
  rewrite dict_snoc, dom_insert_L, IH, fmap_app, list_to_set_app_L. simpl.
  set_solver.
Qed.

Lemma size_list_to_set_le (l : list string) :
  size (list_to_set l : gset string) <= length l /\
  (size (list_to_set l : gset string) = length l <-> NoDup l).
Proof.
  induction l as [|x l [IHle IHeq]].
  - rewrite list_to_set_nil, size_empty. simpl.
    split; [lia|]. split; [constructor | done].
  - rewrite list_to_set_cons. cbn [length].
    destruct (decide (x ∈ l)) as [Hin|Hnin].
    + assert (Heq : ({[x]} ∪ list_to_set l : gset string) = list_to_set l)
        by set_solver.
      rewrite Heq. split; [lia|]. split; [lia|].
      intros Hnd. apply NoDup_cons in Hnd as [Hx _]. contradiction.
    + rewrite size_union by set_solver. rewrite size_singleton.
      split; [lia|]. rewrite NoDup_cons. split.
      * intros Hs. split; [exact Hnin|]. apply IHeq. lia.
      * intros [_ Hnd]. apply IHeq in Hnd. lia.
Qed.

(** A dictionary made of pairs has as many entries as there are pairs
    exactly when the keys of the pairs are distinct. *)
Lemma dict_lossless_iff items :
  size (dict items) = length items <-> NoDup items.*1.
Proof.
  rewrite <- size_dom, dict_dom.
  destruct (size_list_to_set_le items.*1) as [_ Hiff].
  by rewrite length_fmap in Hiff.
Qed.


End units.

(** The keys that each class of [bills.py] declares are distinct, also
    together with the keys that [BillsDetailView] inherits from
    [BillsFields]; the modelled units carry these keys. *)
Lemma declared_keys_distinct :
  NoDup BillsFields_keys /\
  NoDup (BillsDetailView_keys ++ BillsFields_keys) /\
  NoDup BillsDetailTableRow_keys /\
  NoDup BillsDetailAction_keys /\
  (forall add_tz head, (BillsDetailTableRow_units add_tz head).*1
                       = BillsDetailTableRow_keys) /\
  (forall add_tz, (BillsDetailView_units add_tz).*1
                  = take 4 BillsDetailView_keys).
Proof.
  repeat split; try (apply (bool_decide_unpack _); vm_compute; reflexivity).
Qed.

(** On every row of the action table, unless a unit fails with an error
    other than [SkipItem], the items of [BillsDetailTableRow] have distinct
    keys and their dictionary holds every one of them. *)
Lemma BillsDetailTableRow_items add_tz head (self : FieldAggregator) :
  (exists e, iter (BillsDetailTableRow_units add_tz head) self = Raise e /\
             e <> SkipItem) \/
  (exists items,
     iter (BillsDetailTableRow_units add_tz head) self = Ok items /\
     NoDup items.*1 /\ size (dict items) = length items /\
     forall key v, dict items !! key = Some v <-> (key, v) ∈ items).
Proof.
  destruct (first_hard_error (BillsDetailTableRow_units add_tz head) self)
    as [e|] eqn:Hfirst.
  - left. exists e. by apply first_hard_error_Some.
  - right. pose proof (first_hard_error_None _ _ Hfirst) as Hskip.
    assert (Hnd : NoDup (omap (emitted self)
                           (BillsDetailTableRow_units add_tz head)).*1).
    { eapply sublist_NoDup; [|apply omap_emitted_keys_sublist].
      apply (bool_decide_unpack _). vm_compute. reflexivity. }
    eexists. split; [by apply iter_omap|]. split; [exact Hnd|].
    split; [by apply dict_lossless_iff | intros key v; by apply dict_lookup].
Qed.


End IterationFacts.

(** ** More on pagination and on dates *)

Module MoreFacts.
Import Bills People Examples.
Import BillsFacts.

Lemma pagination_without_controls_witness :
  exists q,
    get_pagination_query scripted_submit fresh_form
      {[ btnSearch2 := VStr "Search again" ]} = Ok (q, fresh_form) /\
    client_state fresh_form !! btnSearch2 = None /\
    client_state fresh_form !! lstMax_ClientState = None /\
    q !! btnSearch2 = None /\ q !! lstMax_ClientState = None.
Proof.
  assert (Hq : exists q,
            get_pagination_query scripted_submit fresh_form
              {[ btnSearch2 := VStr "Search again" ]} = Ok (q, fresh_form)).
  { unfold get_pagination_query, get_query.
    replace (default_search_is_simple fresh_form) with (Ok false)
      by (vm_compute; reflexivity).
    cbn [mbind mret result_bind result_ret].
    unfold get_query_advanced, py_or, named_arg.
    rewrite lookup_singleton_ne by done. cbn [default truthy].
    config_step. eexists. reflexivity. }
  destruct Hq as [q Hq]. exists q.
  assert (H1 : client_state fresh_form !! btnSearch2 = None)
    by (vm_compute; reflexivity).
  assert (H2 : client_state fresh_form !! lstMax_ClientState = None)
    by (vm_compute; reflexivity).
  split; [exact Hq|]. split; [exact H1|]. split; [exact H2|].
  exact (PaginationFacts.pagination_without_controls _ _ _ _ _ Hq H1 H2).
Defined.

(** [stringify_date] never complains about a time portion: it returns for
    every datetime, and datetimes on the same calendar date give the same
    string, whatever their time and zone. *)
Theorem stringify_date_ignores_time (dt dt' : datetime) :
  date dt = date dt' ->
  exists s, stringify_date (Some dt) = Ok s /\ stringify_date (Some dt') = Ok s.
Proof.
  intros Hd. unfold stringify_date.
  rewrite (DateFacts.strftime_iso_date dt dt' Hd).
  eexists. split; reflexivity.
Qed.

Lemma stringify_date_ignores_time_witness :
  date midnight = date afternoon /\
  stringify_date (Some midnight) = Ok "2019-03-14" /\
  stringify_date (Some afternoon) = Ok "2019-03-14".
Proof.
  split; [reflexivity|].
  destruct (stringify_date_ignores_time midnight afternoon eq_refl)
    as (s & Hm & Ha).
  assert (Hs : s = "2019-03-14").
  { assert (H : stringify_date (Some midnight) = Ok "2019-03-14")
      by (vm_compute; reflexivity).
    rewrite H in Hm. by injection Hm. }
  rewrite Hm, Ha, Hs. by split.
Defined.

End MoreFacts.
